(** * aiohttp_jinja2: context assembly and rendering pipeline

    A shallow embedding of [aiohttp_jinja2/__init__.py] and the properties
    of its rendering pipeline: [render_string], [render_template], the
    [template] decorator and [context_processors_middleware].

    Python objects live in a heap indexed by locations, so that identity
    ("the very same dict", "the very same response") can be told apart
    from equality of contents.  Coroutines are run to completion: an
    [await] is an ordinary call in the monad [M] below.  Calls to the
    collaborators (processors, template engine, warnings) are recorded in
    a trace.  [setup] runs once at bootstrap and is represented by what it
    leaves behind: the environment and the processors in the config of
    the application. *)

From stdpp Require Import gmap strings list fin_maps.
From Stdlib Require Import ZArith.

Local Open Scope string_scope.
Local Open Scope Z_scope.

(** ** Constants of the module *)

Definition APP_CONTEXT_PROCESSORS_KEY : string := "aiohttp_jinja2_context_processors".
Definition APP_KEY : string := "aiohttp_jinja2_environment".
Definition REQUEST_CONTEXT_KEY : string := "aiohttp_jinja2_context".

(** ** Python values and objects *)

Definition loc := positive.
Bind Scope positive_scope with loc.

(** Immediate values, and references to heap objects. *)
Inductive PyVal :=
| VNone
| VInt (n : Z)
| VStr (s : string)
| VList (xs : list Z)
| VRef (l : loc).

#[global] Instance PyVal_eq_dec : EqDecision PyVal.
Proof. solve_decision. Defined.

(** A string-keyed mapping ([Dict[str, Any]] in the annotations). *)
Abbreviation Ctx := (gmap string PyVal).

(** Modelled from the spec: the host framework's response object, which
    supports status code, content type, charset and text body assignment.
    A freshly constructed [web.Response(status=s)] has no text yet. *)
Record Response := mkResponse {
  resp_status : Z;
  resp_content_type : string;
  resp_charset : option string;
  resp_text : option string
}.

(** Modelled from the spec: the objects of the host framework and of the
    language that the module can meet.  A request is a mutable mapping
    (its per-request store) attached to an application; a class-based
    view exposes the request it serves; any other instance may or may
    not carry an attribute called [request]. *)
Inductive Obj :=
| ODict (m : Ctx)
| OMapping (cls : string) (m : Ctx)
| ORequest (store : Ctx) (app : nat)
| OResponse (r : Response)
| OView (cls : string) (request : PyVal)
| OInstance (cls : string) (request_attr : option PyVal).

Abbreviation Heap := (gmap loc Obj).

(** ** Exceptions and outcomes

    [HTTPInternalServerError] carries the [reason] and [text] it was built
    with; [cause] is the name carried by the [TemplateNotFound] it was
    raised [from], if any. *)

Inductive Exc :=
| TemplateNotFound (name : string)
| HTTPInternalServerError (reason text : string) (cause : option string)
| KeyError (key : string)
| IndexError (msg : string)
| TypeError (msg : string)
| ValueError (msg : string)
| AttributeError (attr : string)
| RuntimeError (msg : string).

Inductive Outcome (A : Type) :=
| Ok (a : A)
| Raise (e : Exc).
Arguments Ok {A} a.
Arguments Raise {A} e.

(** ** External collaborators *)

(** Modelled from the spec: the template engine's narrow contract.  A
    template renders a context to text, synchronously or asynchronously,
    and either call may fail. *)
Record Template := mkTemplate {
  tpl_name : string;
  render : Ctx -> Outcome string;
  render_async : Ctx -> Outcome string
}.

Record Environment := mkEnvironment {
  is_async : bool;
  get_template : string -> Outcome Template
}.

(** Modelled from the spec: a context processor is an asynchronous
    function of the request and a pure contribution of a mapping
    ([Dict[str, Any]] in the annotation of [setup]).  It may inspect the
    request and anything reachable from it, and it may fail. *)
Record Processor := mkProcessor {
  proc_name : string;
  proc_call : PyVal -> Heap -> Outcome Ctx
}.

(** What an application stores under a key of its config. *)
Inductive AppVal :=
| AEnv (env : Environment)
| AProcessors (ps : list Processor)
| ANone.

Abbreviation Config := (gmap string AppVal).

(** ** The world: heap and observable calls *)

Inductive Event :=
| EvWarn (category message : string)
| EvProcessor (name : string) (result : Ctx)
| EvRender (async : bool) (name : string) (context : Ctx).

Record World := mkWorld {
  heap : Heap;
  trace : list Event
}.

Definition set_heap (h : Heap) (w : World) : World :=
  {| heap := h; trace := trace w |}.

Definition add_event (e : Event) (w : World) : World :=
  {| heap := heap w; trace := trace w ++ [e] |}.

(** ** A state and exception monad *)

Definition M (A : Type) : Type := World -> Outcome A * World.

Definition ret {A} (a : A) : M A := fun w => (Ok a, w).

Definition raise {A} (e : Exc) : M A := fun w => (Raise e, w).

Definition bind {A B} (c : M A) (k : A -> M B) : M B :=
  fun w =>
    match c w with
    | (Ok a, w') => k a w'
    | (Raise e, w') => (Raise e, w')
    end.

Declare Scope py_scope.
Delimit Scope py_scope with py.
Notation "x <- c1 ;; c2" := (bind c1 (fun x => c2))
  (at level 100, c1 at next level, right associativity) : py_scope.
Notation "c1 ;; c2" := (bind c1 (fun _ => c2))
  (at level 100, right associativity) : py_scope.
Local Open Scope py_scope.

Definition lift {A} (o : Outcome A) : M A := fun w => (o, w).

Definition read {A} (f : Heap -> A) : M A := fun w => (Ok (f (heap w)), w).

Definition log (e : Event) : M unit := fun w => (Ok tt, add_event e w).

(** [try_except c handle]: run [c]; an exception accepted by [handle] is
    replaced by the handler's computation, any other one propagates. *)
Definition try_except {A} (c : M A) (handle : Exc -> option (M A)) : M A :=
  fun w =>
    match c w with
    | (Ok a, w') => (Ok a, w')
    | (Raise e, w') =>
        match handle e with
        | Some h => h w'
        | None => (Raise e, w')
        end
    end.

(** Allocation of a new object at a location not yet in use. *)
Definition alloc (o : Obj) : M loc :=
  fun w =>
    let l := fresh (dom (heap w)) in
    (Ok l, set_heap (<[l := o]> (heap w)) w).

(** Run a computation that only reads the heap. *)
Definition ask {A} (f : Heap -> Outcome A) : M A := fun w => (f (heap w), w).

Fixpoint for_each {A} (xs : list A) (body : A -> M unit) : M unit :=
  match xs with
  | [] => ret tt
  | x :: xs' => body x;; for_each xs' body
  end.

(** ** The fragment of Python the module relies on *)

(** [needle in hay] on strings. *)
Fixpoint str_contains (needle hay : string) : bool :=
  String.prefix needle hay ||
  match hay with
  | EmptyString => false
  | String _ hay' => str_contains needle hay'
  end.

(** The object a reference denotes; a reference outside the heap denotes
    a featureless instance. *)
Definition obj_at (h : Heap) (l : loc) : Obj :=
  default (OInstance "object" None) (h !! l).

(** [Some items] exactly for the instances of [collections.abc.Mapping]. *)
Definition mapping_items (h : Heap) (v : PyVal) : option Ctx :=
  match v with
  | VRef l =>
      match obj_at h l with
      | ODict m | OMapping _ m | ORequest m _ => Some m
      | _ => None
      end
  | _ => None
  end.

Definition isinstance_Mapping (h : Heap) (v : PyVal) : bool :=
  match mapping_items h v with Some _ => true | None => false end.

Definition isinstance_StreamResponse (h : Heap) (v : PyVal) : bool :=
  match v with
  | VRef l => match obj_at h l with OResponse _ => true | _ => false end
  | _ => false
  end.

Definition isinstance_AbstractView (h : Heap) (v : PyVal) : bool :=
  match v with
  | VRef l => match obj_at h l with OView _ _ => true | _ => false end
  | _ => false
  end.

(** [hasattr(v, "request")], with the attribute's value. *)
Definition request_attribute (h : Heap) (v : PyVal) : option PyVal :=
  match v with
  | VRef l =>
      match obj_at h l with
      | OView _ r => Some r
      | OInstance _ a => a
      | _ => None
      end
  | _ => None
  end.

(** [v.request] *)
Definition getattr_request (v : PyVal) (h : Heap) : Outcome PyVal :=
  match request_attribute h v with
  | Some r => Ok r
  | None => Raise (AttributeError "request")
  end.

(** [bool(v)] *)
Definition truthy (h : Heap) (v : PyVal) : bool :=
  match v with
  | VNone => false
  | VInt n => negb (n =? 0)
  | VStr s => negb (String.eqb s EmptyString)
  | VList xs => match xs with [] => false | _ => true end
  | VRef l =>
      match obj_at h l with
      | ODict m | OMapping _ m => negb (bool_decide (m = ∅))
      | _ => true
      end
  end.

Definition class_name (h : Heap) (v : PyVal) : string :=
  match v with
  | VNone => "NoneType"
  | VInt _ => "int"
  | VStr _ => "str"
  | VList _ => "list"
  | VRef l =>
      match obj_at h l with
      | ODict _ => "dict"
      | OMapping c _ => c
      | ORequest _ _ => "aiohttp.web_request.Request"
      | OResponse _ => "aiohttp.web_response.Response"
      | OView c _ => c
      | OInstance c _ => c
      end
  end.

(** [str(type(v))], which is what ["{}".format(type(v))] inserts. *)
Definition type_repr (h : Heap) (v : PyVal) : string :=
  "<class '" ++ class_name h v ++ "'>".

(** [v.get(key)] *)
Definition py_get (v : PyVal) (key : string) (h : Heap) : Outcome PyVal :=
  match mapping_items h v with
  | Some m => Ok (default VNone (m !! key))
  | None => Raise (AttributeError "get")
  end.

(** [v[key]] for a string [key] *)
Definition py_getitem (v : PyVal) (key : string) (h : Heap) : Outcome PyVal :=
  match mapping_items h v with
  | Some m =>
      match m !! key with
      | Some x => Ok x
      | None => Raise (KeyError key)
      end
  | None =>
      match v with
      | VStr _ | VList _ => Raise (TypeError "indices must be integers")
      | _ => Raise (TypeError "object is not subscriptable")
      end
  end.

(** [key in v] for a string [key] *)
Definition py_contains (key : string) (v : PyVal) (h : Heap) : Outcome bool :=
  match mapping_items h v with
  | Some m => Ok (bool_decide (is_Some (m !! key)))
  | None =>
      match v with
      | VStr s => Ok (str_contains key s)
      | VList _ => Ok false
      | _ => Raise (TypeError "argument is not iterable")
      end
  end.

(** [v[key] = x] *)
Definition py_setitem (v : PyVal) (key : string) (x : PyVal) : M unit :=
  fun w =>
    let fail := (Raise (TypeError "object does not support item assignment"), w) in
    match v with
    | VRef l =>
        match obj_at (heap w) l with
        | ODict m => (Ok tt, set_heap (<[l := ODict (<[key := x]> m)]> (heap w)) w)
        | ORequest m a =>
            (Ok tt, set_heap (<[l := ORequest (<[key := x]> m) a]> (heap w)) w)
        | _ => fail
        end
    | _ => fail
    end.

(** [dict(v, **kw)]: the items of [v], overridden by those of [kw]. *)
Definition py_dict (v kw : PyVal) (h : Heap) : Outcome Ctx :=
  match mapping_items h kw with
  | None => Raise (TypeError "argument after ** must be a mapping")
  | Some k =>
      match mapping_items h v with
      | Some m => Ok (k ∪ m)
      | None =>
          match v with
          | VStr EmptyString | VList [] => Ok k
          | VStr _ => Raise (ValueError "dictionary update sequence element #0 has length 1; 2 is required")
          | VList _ => Raise (TypeError "cannot convert dictionary update sequence element #0 to a sequence")
          | _ => Raise (TypeError "object is not iterable")
          end
      end
  end.

(** [v.update]: the bound method of a mutable mapping, named by the
    location of the object it will update. *)
Definition getattr_update (v : PyVal) (h : Heap) : Outcome loc :=
  match v with
  | VRef l =>
      match obj_at h l with
      | ODict _ | ORequest _ _ => Ok l
      | _ => Raise (AttributeError "update")
      end
  | _ => Raise (AttributeError "update")
  end.

(** Calling that bound method: the new items win over the old ones. *)
Definition call_update (l : loc) (new : Ctx) : M unit :=
  fun w =>
    match obj_at (heap w) l with
    | ODict m => (Ok tt, set_heap (<[l := ODict (new ∪ m)]> (heap w)) w)
    | ORequest m a => (Ok tt, set_heap (<[l := ORequest (new ∪ m) a]> (heap w)) w)
    | _ => (Raise (AttributeError "update"), w)
    end.

(** Assignment to a property of a response object. *)
Definition set_response (l : loc) (f : Response -> Response) : M unit :=
  fun w =>
    match obj_at (heap w) l with
    | OResponse r => (Ok tt, set_heap (<[l := OResponse (f r)]> (heap w)) w)
    | _ => (Raise (AttributeError "response"), w)
    end.

Definition with_status (s : Z) (r : Response) : Response :=
  mkResponse s (resp_content_type r) (resp_charset r) (resp_text r).
Definition with_content_type (c : string) (r : Response) : Response :=
  mkResponse (resp_status r) c (resp_charset r) (resp_text r).
Definition with_charset (c : string) (r : Response) : Response :=
  mkResponse (resp_status r) (resp_content_type r) (Some c) (resp_text r).
Definition with_text (t : string) (r : Response) : Response :=
  mkResponse (resp_status r) (resp_content_type r) (resp_charset r) (Some t).

(** [web.Response(status=status)] *)
Definition new_response (status : Z) : M loc :=
  alloc (OResponse (mkResponse status "application/octet-stream" None None)).

(** [await processor(request)] *)
Definition call_processor (p : Processor) (request : PyVal) : M Ctx :=
  fun w =>
    match proc_call p request (heap w) with
    | Ok m => (Ok m, add_event (EvProcessor (proc_name p) m) w)
    | Raise e => (Raise e, w)
    end.

(** [template.render(context)] and [template.render_async(context)] *)
Definition call_render (async : bool) (t : Template) (context : Ctx) : M string :=
  log (EvRender async (tpl_name t) context);;
  lift (if async then render_async t context else render t context).

(** ** The module *)

(** A handler as the decorator sees it: whether it is a coroutine
    function, and what calling it does. *)
Record Handler := mkHandler {
  is_coroutine_function : bool;
  call : list PyVal -> M PyVal
}.

Section Module.

(** Modelled from the spec: the "config-wide view" of the host framework,
    which gives for the application a request belongs to the store that
    [request.config_dict] resolves keys in. *)
Variable config_dict : nat -> Config.

(** [request.config_dict] *)
Definition getattr_config_dict (request : PyVal) (h : Heap) : Outcome Config :=
  match request with
  | VRef l =>
      match obj_at h l with
      | ORequest _ a => Ok (config_dict a)
      | _ => Raise (AttributeError "config_dict")
      end
  | _ => Raise (AttributeError "config_dict")
  end.

(** [get_env(app, app_key=...)] *)
Definition get_env (app : Config) (app_key : option string) : AppVal :=
  default ANone (app !! default APP_KEY app_key).

Definition not_initialized_text (app_key : string) : string :=
  "Template engine is not initialized, call aiohttp_jinja2.setup(..., app_key="
  ++ app_key ++ ") first".

Definition not_found_text (template_name : string) : string :=
  "Template '" ++ template_name ++ "' not found".

Definition not_mapping_text (type : string) : string :=
  "context should be mapping, not " ++ type.

(** [render_string(template_name, request, context, *, app_key=APP_KEY)] *)
Definition render_string (template_name : string) (request context : PyVal)
    (app_key : option string) : M string :=
  let app_key := default APP_KEY app_key in
  config <- ask (getattr_config_dict request);;
  match default ANone (config !! app_key) with
  | ANone =>
      let text := not_initialized_text app_key in
      raise (HTTPInternalServerError text text None)
  | AProcessors _ => raise (AttributeError "get_template")
  | AEnv env =>
      template <- try_except (lift (get_template env template_name))
                    (fun e =>
                       match e with
                       | TemplateNotFound n =>
                           let text := not_found_text template_name in
                           Some (raise (HTTPInternalServerError text text (Some n)))
                       | _ => None
                       end);;
      is_mapping <- read (fun h => isinstance_Mapping h context);;
      if negb is_mapping then
        type <- read (fun h => type_repr h context);;
        let text := not_mapping_text type in
        raise (HTTPInternalServerError text text None)
      else
        accumulated <- ask (py_get request REQUEST_CONTEXT_KEY);;
        merge <- read (fun h => truthy h accumulated);;
        context <- (if merge then
                      accumulated <- ask (py_getitem request REQUEST_CONTEXT_KEY);;
                      ask (py_dict accumulated context)
                    else
                      read (fun h => default ∅ (mapping_items h context)));;
        call_render (is_async env) template context
  end.

(** [render_template(template_name, request, context, *, app_key=APP_KEY,
    encoding='utf-8', status=200)] *)
Definition render_template (template_name : string) (request context : PyVal)
    (app_key encoding : option string) (status : option Z) : M PyVal :=
  let app_key := default APP_KEY app_key in
  let encoding := default "utf-8" encoding in
  let status := default 200 status in
  response <- new_response status;;
  context <- (match context with
              | VNone => d <- alloc (ODict ∅);; ret (VRef d)
              | _ => ret context
              end);;
  text <- render_string template_name request context (Some app_key);;
  set_response response (with_content_type "text/html");;
  set_response response (with_charset encoding);;
  set_response response (with_text text);;
  ret (VRef response).

(** [template(template_name, *, app_key=APP_KEY, encoding='utf-8',
    status=200)(func)]: the body of [wrapped], applied to its positional
    arguments. *)
Definition template (template_name : string) (app_key encoding : option string)
    (status : option Z) (func : Handler) (args : list PyVal) : M PyVal :=
  let app_key := default APP_KEY app_key in
  let encoding := default "utf-8" encoding in
  let status := default 200 status in
  (if is_coroutine_function func then ret tt
   else log (EvWarn "DeprecationWarning"
                    "Bare functions are deprecated, use async ones"));;
  context <- call func args;;
  is_response <- read (fun h => isinstance_StreamResponse h context);;
  if is_response then ret context
  else
    match args with
    | [] => raise (IndexError "tuple index out of range")
    | first :: _ =>
        is_view <- read (fun h => isinstance_AbstractView h first);;
        request <- (if is_view then ask (getattr_request first)
                    else ret (default VNone (last args)));;
        response <- render_template template_name request context
                      (Some app_key) (Some encoding) None;;
        match response with
        | VRef l => set_response l (with_status status)
        | _ => raise (AttributeError "set_status")
        end;;
        ret response
    end.

(** [context_processors_middleware(request, handler)] *)
Definition context_processors_middleware (request : PyVal)
    (handler : PyVal -> M PyVal) : M PyVal :=
  present <- ask (py_contains REQUEST_CONTEXT_KEY request);;
  (if negb present then
     d <- alloc (ODict ∅);;
     py_setitem request REQUEST_CONTEXT_KEY (VRef d)
   else ret tt);;
  config <- ask (getattr_config_dict request);;
  processors <- lift (match config !! APP_CONTEXT_PROCESSORS_KEY with
                      | None => Raise (KeyError APP_CONTEXT_PROCESSORS_KEY)
                      | Some (AProcessors ps) => Ok ps
                      | Some _ => Raise (TypeError "object is not iterable")
                      end);;
  for_each processors (fun processor =>
    accumulated <- ask (py_getitem request REQUEST_CONTEXT_KEY);;
    update <- ask (getattr_update accumulated);;
    result <- call_processor processor request;;
    call_update update result);;
  handler request.

(** [request_processor(request)] *)
Definition request_processor : Processor :=
  mkProcessor "request_processor" (fun request _ => Ok {[ "request" := request ]}).

End Module.

(** ** Vocabulary of the properties *)

(** What the per-request store of a request holds as accumulated context:
    [None] when the store has no entry under [REQUEST_CONTEXT_KEY],
    [Some a] when the entry is a mapping with items [a]. *)
Definition holds_accumulated (h : Heap) (store : Ctx) (acc : option Ctx) : Prop :=
  match acc with
  | None => store !! REQUEST_CONTEXT_KEY = None
  | Some a => exists v, store !! REQUEST_CONTEXT_KEY = Some v /\ mapping_items h v = Some a
  end.

(** [{**accumulated, **context}], or [context] alone. *)
Definition effective_context (acc : option Ctx) (context : Ctx) : Ctx :=
  match acc with
  | Some a => context ∪ a
  | None => context
  end.


(** The world a wrapped handler starts in: a bare function is first
    reported as deprecated. *)
Definition warned (func : Handler) (w : World) : World :=
  if is_coroutine_function func then w
  else add_event (EvWarn "DeprecationWarning"
                         "Bare functions are deprecated, use async ones") w.

Definition is_render (e : Event) : bool :=
  match e with EvRender _ _ _ => true | _ => false end.

(** The engine calls recorded so far. *)
Definition render_calls (w : World) : list Event :=
  List.filter is_render (trace w).

(** The last steps of [wrapped], from the call of [render_template] on:
    render with the resolved request, force the status, return. *)
Definition render_and_set_status (config_dict : nat -> Config)
    (template_name : string) (request context : PyVal)
    (app_key encoding : string) (status : Z) : M PyVal :=
  response <- render_template config_dict template_name request context
                (Some app_key) (Some encoding) None;;
  match response with
  | VRef l => set_response l (with_status status)
  | _ => raise (AttributeError "set_status")
  end;;
  ret response.

(** The request by the rule "an instance of the class-based-view base
    class gives its [request], anything else leaves the last positional
    argument". *)
Definition request_by_view_class (h : Heap) (args : list PyVal) : option PyVal :=
  match args with
  | [] => None
  | first :: _ =>
      if isinstance_AbstractView h first then request_attribute h first
      else last args
  end.

(** The request by the rule "a first argument that exposes a [request]
    attribute gives it, anything else leaves the last positional
    argument". *)
Definition request_by_attribute (h : Heap) (args : list PyVal) : option PyVal :=
  match args with
  | [] => None
  | first :: _ =>
      match request_attribute h first with
      | Some r => Some r
      | None => last args
      end
  end.

(** [acc.update(new)] on contents, and the left-to-right fold of it. *)
Definition merge (acc new : Ctx) : Ctx := new ∪ acc.

Definition merge_all (acc : Ctx) (ms : list Ctx) : Ctx := fold_left merge ms acc.

(** The processors [ps], called one after the other on the request while
    the accumulated context at [d] grows from [acc], return the mappings
    [ms]. *)
Fixpoint returns_in_order (request : PyVal) (h : Heap) (d : loc) (acc : Ctx)
    (ps : list Processor) (ms : list Ctx) : Prop :=
  match ps, ms with
  | [], [] => True
  | p :: ps', m :: ms' =>
      proc_call p request (<[d := ODict acc]> h) = Ok m
      /\ returns_in_order request h d (merge acc m) ps' ms'
  | _, _ => False
  end.

Definition processor_events (ps : list Processor) (ms : list Ctx) : list Event :=
  zip_with EvProcessor (proc_name <$> ps) ms.

(** Where the middleware finds or puts the accumulated context of the
    request at [l]: the dict's location, its initial content, and the
    heap the processors start in.  Without an entry a new empty dict is
    stored under [REQUEST_CONTEXT_KEY]; an existing dict is kept. *)
Inductive entry_state (w : World) (l : loc) (store : Ctx) (app : nat) :
    loc -> Ctx -> Heap -> Prop :=
| entry_absent :
    store !! REQUEST_CONTEXT_KEY = None ->
    entry_state w l store app (fresh (dom (heap w))) ∅
      (<[l := ORequest (<[REQUEST_CONTEXT_KEY := VRef (fresh (dom (heap w)))]> store) app]>
         (<[fresh (dom (heap w)) := ODict ∅]> (heap w)))
| entry_present (d : loc) (acc : Ctx) :
    store !! REQUEST_CONTEXT_KEY = Some (VRef d) ->
    heap w !! d = Some (ODict acc) ->
    entry_state w l store app d acc (heap w).

(** The dict a request holds under [REQUEST_CONTEXT_KEY]: its location
    and its items. *)
Definition accumulated_context (h : Heap) (request : loc) : option (loc * Ctx) :=
  match obj_at h request with
  | ORequest store _ =>
      match store !! REQUEST_CONTEXT_KEY with
      | Some (VRef d) =>
          match obj_at h d with
          | ODict m => Some (d, m)
          | _ => None
          end
      | _ => None
      end
  | _ => None
  end.

(** ** A small application, for the examples

    One template [t.html] that prints the value of [x]; two processors
    that both contribute the key [a]; an application 0 that was set up
    with them and an application 1 that was not set up at all. *)

Definition ex_print (c : Ctx) : Outcome string :=
  match c !! "x" with
  | Some (VInt 1) => Ok "1"
  | Some (VInt 2) => Ok "2"
  | Some (VStr s) => Ok s
  | _ => Ok EmptyString
  end.

Definition ex_template : Template := mkTemplate "t.html" ex_print ex_print.

Definition ex_env : Environment :=
  mkEnvironment true
    (fun name => if String.eqb name "t.html" then Ok ex_template
                 else Raise (TemplateNotFound name)).

Definition ex_p1 : Processor := mkProcessor "p1" (fun _ _ => Ok {[ "a" := VInt 1 ]}).
Definition ex_p2 : Processor := mkProcessor "p2" (fun _ _ => Ok {[ "a" := VInt 2 ]}).

Definition ex_config (app : nat) : Config :=
  match app with
  | O => {[ APP_KEY := AEnv ex_env;
            APP_CONTEXT_PROCESSORS_KEY := AProcessors [ex_p1; ex_p2] ]}
  | _ => ∅
  end.

(** Objects: 1 a fresh request of application 0; 2 the context
    [{'x': 1}]; 3 a request of application 1; 4 an instance of a
    handler class that keeps some request in an attribute [request];
    5 a class-based view serving request 1; 6 a complete response;
    7 an accumulated context [{'x': 1, 'a': 0}]; 8 a request of
    application 0 whose store holds 7; 9 the context [{'x': 2}]. *)
Definition ex_heap : Heap :=
  {[ 1%positive := ORequest ∅ 0;
     2%positive := ODict {[ "x" := VInt 1 ]};
     3%positive := ORequest ∅ 1;
     4%positive := OInstance "Handlers" (Some (VRef 3));
     5%positive := OView "aiohttp.web_urldispatcher.View" (VRef 1);
     6%positive := OResponse (mkResponse 204 "text/plain" None None);
     7%positive := ODict {[ "x" := VInt 1; "a" := VInt 0 ]};
     8%positive := ORequest {[ REQUEST_CONTEXT_KEY := VRef 7 ]} 0;
     9%positive := ODict {[ "x" := VInt 2 ]} ]}.

Definition ex_world : World := mkWorld ex_heap [].

(** Handlers: one returns the context 2, one returns the response 6. *)
Definition ex_context_handler : Handler :=
  mkHandler true (fun _ => ret (VRef 2)).
Definition ex_response_handler : Handler :=
  mkHandler false (fun _ => ret (VRef 6)).


(** ** Vocabulary of the further properties *)

(** Objects that exist stay as they are when objects are added. *)
Definition extends (h h' : Heap) : Prop :=
  forall (l : loc) (o : Obj), h !! l = Some o -> h' !! l = Some o.

(** The items [render_template] takes from the context it is given:
    none for [None], those of the mapping otherwise. *)
Definition context_items (h : Heap) (context : PyVal) : option Ctx :=
  match context with
  | VNone => Some ∅
  | _ => mapping_items h context
  end.

(** A value that is immediate or refers to an object of the heap. *)
Definition in_heap (h : Heap) (v : PyVal) : Prop :=
  match v with
  | VRef l => is_Some (h !! l)
  | _ => True
  end.

(** ** Bootstrap: [setup] *)

(** Modelled from the spec: a value the engine is given as an option or
    holds as a global or as a filter.  [EApplication] stands for the
    application object [setup] is called on. *)
Inductive EngineVal :=
| EBool (b : bool)
| EValue (v : PyVal)
| ECallable (name : string)
| EApplication.

(** Modelled from the spec: the environment object of the engine as
    [setup] sees it: what the rendering functions use of it, and its
    registries of globals and filters. *)
Record EnvObject := mkEnvObject {
  env_handle : Environment;
  env_globals : gmap string EngineVal;
  env_filters : gmap string EngineVal
}.

(** Modelled from the spec: the application object of the host
    framework, a key-value store and a list of registered middlewares. *)
Inductive Middleware :=
| ContextProcessorsMiddleware
| OtherMiddleware (name : string).

Record Application := mkApplication {
  app_state : Config;
  app_middlewares : list Middleware
}.

Section Setup.

(** Modelled from the spec: the constructor of the engine's environment,
    called with positional arguments, [enable_async] and keyword
    options; it may fail. *)
Variable jinja2_Environment :
  list EngineVal -> bool -> gmap string EngineVal -> Outcome EnvObject.

(** The built-in helpers of [aiohttp_jinja2.helpers]. *)
Variable GLOBAL_HELPERS : gmap string EngineVal.

(** [setup(app, *args, app_key=APP_KEY, context_processors=(),
    filters=None, default_helpers=True, enable_async=True, **kwargs)]:
    the outcome, and the application as the call leaves it. *)
Definition setup (app : Application) (args : list EngineVal)
    (app_key : option string) (context_processors : list Processor)
    (filters : option (gmap string EngineVal))
    (default_helpers enable_async : option bool)
    (kwargs : gmap string EngineVal) : Outcome EnvObject * Application :=
  let app_key := default APP_KEY app_key in
  let default_helpers := default true default_helpers in
  let enable_async := default true enable_async in
  let kwargs := match kwargs !! "autoescape" with
                | Some _ => kwargs
                | None => <["autoescape" := EBool true]> kwargs
                end in
  match jinja2_Environment args enable_async kwargs with
  | Raise e => (Raise e, app)
  | Ok env =>
      let globals := if default_helpers then GLOBAL_HELPERS ∪ env_globals env
                     else env_globals env in
      let filters := match filters with
                     | Some f => f ∪ env_filters env
                     | None => env_filters env
                     end in
      let state := <[app_key := AEnv (env_handle env)]> (app_state app) in
      let app :=
        match context_processors with
        | [] => mkApplication state (app_middlewares app)
        | _ :: _ =>
            mkApplication
              (<[APP_CONTEXT_PROCESSORS_KEY := AProcessors context_processors]> state)
              (app_middlewares app ++ [ContextProcessorsMiddleware])
        end in
      let globals := <["app" := EApplication]> globals in
      (Ok (mkEnvObject (env_handle env) globals filters), app)
  end.

End Setup.

(** Every registration of the middleware of this module is backed by a
    processors entry in the store of the application. *)
Definition middleware_backed (app : Application) : Prop :=
  ContextProcessorsMiddleware ∈ app_middlewares app ->
  exists ps, app_state app !! APP_CONTEXT_PROCESSORS_KEY = Some (AProcessors ps).

(** ** More of the example application

    Application 2 has an environment whose template lookup fails with an
    error of its own; application 3 has a failing processor between two
    sound ones; application 4 has [request_processor] after a sound
    one. *)

Definition ex_broken_env : Environment :=
  mkEnvironment true (fun _ => Raise (RuntimeError "unexpected end of template")).

Definition ex_failing : Processor :=
  mkProcessor "failing" (fun _ _ => Raise (RuntimeError "no database")).

Definition ex_config2 (app : nat) : Config :=
  match app with
  | 2%nat => {[ APP_KEY := AEnv ex_broken_env ]}
  | 3%nat => {[ APP_CONTEXT_PROCESSORS_KEY := AProcessors [ex_p1; ex_failing; ex_p2] ]}
  | 4%nat => {[ APP_CONTEXT_PROCESSORS_KEY := AProcessors [ex_p1; request_processor] ]}
  | _ => ex_config app
  end.

(** Further objects: 11 a request of application 0 whose store holds
    [None] under the context key; 12 one whose store holds the number
    5 there; 13, 14 and 15 fresh requests of the applications 2, 3
    and 4. *)
Definition ex_heap2 : Heap :=
  <[11%positive := ORequest {[ REQUEST_CONTEXT_KEY := VNone ]} 0]>
    (<[12%positive := ORequest {[ REQUEST_CONTEXT_KEY := VInt 5 ]} 0]>
       (<[13%positive := ORequest ∅ 2]>
          (<[14%positive := ORequest ∅ 3]>
             (<[15%positive := ORequest ∅ 4]> ex_heap)))).

Definition ex_world2 : World := mkWorld ex_heap2 [].

(** Handlers that raise, return [None] and return a list. *)
Definition ex_failing_handler : Handler :=
  mkHandler true (fun _ => raise (RuntimeError "handler failed")).
Definition ex_none_handler : Handler :=
  mkHandler true (fun _ => ret VNone).
Definition ex_list_handler : Handler :=
  mkHandler true (fun _ => ret (VList [1; 2])).

(** An engine whose constructor refuses the option [bogus] and otherwise
    builds an environment with one global and one filter of its own; two
    helpers; an application with one middleware of its own. *)
Definition ex_new_environment (args : list EngineVal) (enable_async : bool)
    (kwargs : gmap string EngineVal) : Outcome EnvObject :=
  match kwargs !! "bogus" with
  | Some _ => Raise (TypeError "unexpected keyword argument 'bogus'")
  | None =>
      Ok (mkEnvObject (mkEnvironment enable_async (get_template ex_env))
            {[ "range" := ECallable "range"; "url" := ECallable "engine_url" ]}
            {[ "upper" := ECallable "upper" ]})
  end.

Definition ex_helpers : gmap string EngineVal :=
  {[ "url" := ECallable "url_for"; "static" := ECallable "static_url" ]}.

Definition ex_app : Application := mkApplication ∅ [OtherMiddleware "logger"].

(** The call [setup(app, context_processors=[p1, p2],
    filters={'upper': my_upper})] on the example application. *)
Definition ex_setup : Outcome EnvObject * Application :=
  setup ex_new_environment ex_helpers ex_app [] None [ex_p1; ex_p2]
    (Some {[ "upper" := ECallable "my_upper" ]}) None None ∅.

(** What that call returns and leaves behind. *)
Definition ex_env_object : EnvObject :=
  mkEnvObject (mkEnvironment true (get_template ex_env))
    (<["app" := EApplication]>
       (ex_helpers
        ∪ {[ "range" := ECallable "range"; "url" := ECallable "engine_url" ]}))
    ({[ "upper" := ECallable "my_upper" ]} ∪ {[ "upper" := ECallable "upper" ]}).

Definition ex_app_after : Application :=
  mkApplication
    (<[APP_CONTEXT_PROCESSORS_KEY := AProcessors [ex_p1; ex_p2]]>
       (<[APP_KEY := AEnv (mkEnvironment true (get_template ex_env))]> ∅))
    [OtherMiddleware "logger"; ContextProcessorsMiddleware].

(** A second call, [setup(app, app_key='admin', default_helpers=False,
    enable_async=False)]. *)
Definition ex_setup_admin : Outcome EnvObject * Application :=
  setup ex_new_environment ex_helpers ex_app_after [] (Some "admin") [] None
    (Some false) (Some false) ∅.

Definition ex_admin_env_object : EnvObject :=
  mkEnvObject (mkEnvironment false (get_template ex_env))
    (<["app" := EApplication]>
       {[ "range" := ECallable "range"; "url" := ECallable "engine_url" ]})
    {[ "upper" := ECallable "upper" ]}.

Definition ex_app_admin : Application :=
  mkApplication
    (<["admin" := AEnv (mkEnvironment false (get_template ex_env))]>
       (app_state ex_app_after))
    [OtherMiddleware "logger"; ContextProcessorsMiddleware].
(** * Properties *)

(** ** Basic facts *)

Lemma obj_at_lookup (h : Heap) (l : loc) (o : Obj) :
  h !! l = Some o -> obj_at h l = o.
Proof. intros H. unfold obj_at. by rewrite H. Qed.

Lemma bind_ok {A B} (c : M A) (k : A -> M B) (w w' : World) (a : A) :
  c w = (Ok a, w') -> bind c k w = k a w'.
Proof. intros H. unfold bind. by rewrite H. Qed.

Lemma bind_raise {A B} (c : M A) (k : A -> M B) (w w' : World) (e : Exc) :
  c w = (Raise e, w') -> bind c k w = (Raise e, w').
Proof. intros H. unfold bind. by rewrite H. Qed.

Lemma prefix_app (s t : string) : String.prefix s (s ++ t) = true.
Proof.
  induction s as [|a s IH]; simpl.
  - by destruct t.
  - destruct (Ascii.ascii_dec a a); [exact IH | congruence].
Qed.

Lemma str_contains_here (s t : string) : str_contains s (s ++ t) = true.
Proof. pose proof (prefix_app s t) as H. destruct (s ++ t); cbn [str_contains]; by rewrite H. Qed.

Lemma str_contains_app (pre s post : string) :
  str_contains s (pre ++ s ++ post) = true.
Proof.
  induction pre as [|a pre IH].
  - exact (str_contains_here s post).
  - change (String a pre +:+ s +:+ post) with (String a (pre +:+ s +:+ post)).
    cbn [str_contains]. rewrite IH. apply orb_true_r.
Qed.

Local Open Scope list_scope.

(** One step of symbolic execution in the monad. *)
Ltac mstep :=
  cbv beta iota zeta delta
    [bind ret raise lift read ask log try_except call_render negb fst snd].

(** ** [render_string]: the three fatal errors *)

(** C6: without an environment under [app_key] in the config view of the
    request, [render_string] raises an internal server error whose reason
    and text are the same message, and the message names the key. *)
Theorem render_string_environment_not_configured
    (config_dict : nat -> Config) (template_name : string) (l : loc)
    (context : PyVal) (app_key : option string) (store : Ctx) (app : nat)
    (w : World) :
  heap w !! l = Some (ORequest store app) ->
  get_env (config_dict app) app_key = ANone ->
  let key := default APP_KEY app_key in
  let text := not_initialized_text key in
  render_string config_dict template_name (VRef l) context app_key w
    = (Raise (HTTPInternalServerError text text None), w)
  /\ str_contains key text = true.
Proof.
  intros Hl Henv key text. split.
  - unfold render_string, bind, ask, getattr_config_dict.
    rewrite (obj_at_lookup _ _ _ Hl). cbn beta iota.
    unfold get_env in Henv. rewrite Henv. reflexivity.
  - apply str_contains_app.
Qed.

(** C7: with an environment configured, a template the environment does
    not know makes [render_string] raise an internal server error whose
    reason and text are the same message, and the message contains the
    template name. *)
Theorem render_string_template_not_found
    (config_dict : nat -> Config) (template_name : string) (l : loc)
    (context : PyVal) (app_key : option string) (store : Ctx) (app : nat)
    (env : Environment) (n : string) (w : World) :
  heap w !! l = Some (ORequest store app) ->
  get_env (config_dict app) app_key = AEnv env ->
  get_template env template_name = Raise (TemplateNotFound n) ->
  let text := not_found_text template_name in
  render_string config_dict template_name (VRef l) context app_key w
    = (Raise (HTTPInternalServerError text text (Some n)), w)
  /\ str_contains template_name text = true.
Proof.
  intros Hl Henv Htpl text. split.
  - unfold render_string, bind, ask, getattr_config_dict.
    rewrite (obj_at_lookup _ _ _ Hl). cbn beta iota.
    unfold get_env in Henv. rewrite Henv.
    unfold try_except, lift. rewrite Htpl. reflexivity.
  - apply str_contains_app.
Qed.

(** C8: with an environment configured and the template found, a context
    that is not a mapping makes [render_string] raise an internal server
    error whose reason and text are the same message, and the message
    names the type of the context. *)
Theorem render_string_invalid_context
    (config_dict : nat -> Config) (template_name : string) (l : loc)
    (context : PyVal) (app_key : option string) (store : Ctx) (app : nat)
    (env : Environment) (t : Template) (w : World) :
  heap w !! l = Some (ORequest store app) ->
  get_env (config_dict app) app_key = AEnv env ->
  get_template env template_name = Ok t ->
  isinstance_Mapping (heap w) context = false ->
  let text := not_mapping_text (type_repr (heap w) context) in
  render_string config_dict template_name (VRef l) context app_key w
    = (Raise (HTTPInternalServerError text text None), w)
  /\ str_contains (class_name (heap w) context) text = true.
Proof.
  intros Hl Henv Htpl Hctx text. split.
  - unfold render_string, bind, ask, getattr_config_dict.
    rewrite (obj_at_lookup _ _ _ Hl). cbn beta iota.
    unfold get_env in Henv. rewrite Henv.
    unfold try_except, lift. rewrite Htpl. unfold read. cbn beta iota.
    rewrite Hctx. reflexivity.
  - unfold text, not_mapping_text, type_repr.
    apply (str_contains_app "context should be mapping, not <class '" _ "'>").
Qed.

(** ** [render_string]: the render path *)

Lemma truthy_mapping (h : Heap) (v : PyVal) (a : Ctx) :
  mapping_items h v = Some a -> truthy h v = false -> a = ∅.
Proof.
  unfold mapping_items, truthy. destruct v as [| | | |d]; try discriminate.
  destruct (obj_at h d); try discriminate; intros [= ->] Ht;
    apply negb_false_iff, bool_decide_eq_true in Ht; done.
Qed.

(** C1: with an environment configured, the template found and a mapping
    as context, [render_string] makes exactly one engine call
    ([render_async] for an async environment, [render] otherwise) on the
    effective context and returns its outcome as it is; the effective
    context is the accumulated context overridden by the handler's
    context when the store holds one, the handler's context otherwise. *)
Theorem render_string_renders_effective_context
    (config_dict : nat -> Config) (template_name : string) (l : loc)
    (context : PyVal) (app_key : option string) (store : Ctx) (app : nat)
    (env : Environment) (t : Template) (m : Ctx) (acc : option Ctx)
    (w : World) :
  heap w !! l = Some (ORequest store app) ->
  get_env (config_dict app) app_key = AEnv env ->
  get_template env template_name = Ok t ->
  mapping_items (heap w) context = Some m ->
  holds_accumulated (heap w) store acc ->
  let effective := effective_context acc m in
  render_string config_dict template_name (VRef l) context app_key w
    = ((if is_async env then render_async t effective else render t effective),
       add_event (EvRender (is_async env) (tpl_name t) effective) w)
  /\ (forall k x, m !! k = Some x -> effective !! k = Some x)
  /\ (forall k a, acc = Some a -> m !! k = None -> effective !! k = a !! k).
Proof.
  intros Hl Henv Htpl Hctx Hacc effective. split; [|split].
  - unfold render_string, getattr_config_dict. mstep.
    rewrite (obj_at_lookup _ _ _ Hl). mstep.
    unfold get_env in Henv. rewrite Henv. mstep.
    rewrite Htpl. mstep.
    unfold isinstance_Mapping. rewrite Hctx. mstep.
    assert (Hreq : mapping_items (heap w) (VRef l) = Some store).
    { unfold mapping_items. by rewrite (obj_at_lookup _ _ _ Hl). }
    unfold py_get. rewrite Hreq. mstep.
    destruct acc as [a|]; unfold holds_accumulated in Hacc.
    + destruct Hacc as (v & Hv & Ha). rewrite Hv. cbn [default from_option id].
      destruct (truthy (heap w) v) eqn:Ht; mstep.
      * unfold py_getitem. rewrite Hreq, Hv. mstep.
        unfold py_dict. rewrite Hctx, Ha. reflexivity.
      * rewrite Hctx. cbn [default from_option id].
        apply (truthy_mapping _ _ _ Ha) in Ht. subst a.
        unfold effective, effective_context. rewrite (right_id_L ∅ (∪) m).
        reflexivity.
    + rewrite Hacc. cbn. rewrite Hctx. reflexivity.
  - intros k x Hk. unfold effective, effective_context.
    destruct acc; [|done]. by apply lookup_union_Some_l.
  - intros k a -> Hk. unfold effective, effective_context.
    by apply lookup_union_r.
Qed.

(** ** [render_template] *)

(** [render_string] never writes to the heap. *)
Lemma render_string_heap (config_dict : nat -> Config) (template_name : string)
    (request context : PyVal) (app_key : option string) (w : World) :
  heap (render_string config_dict template_name request context app_key w).2
  = heap w.
Proof.
  unfold render_string, getattr_config_dict. mstep.
  destruct request as [| | | |l]; try reflexivity.
  destruct (obj_at (heap w) l); try reflexivity.
  destruct (default ANone _); try reflexivity.
  destruct (get_template env template_name) as [t|[]]; try reflexivity.
  destruct (isinstance_Mapping (heap w) context); [|reflexivity].
  cbn [negb]. destruct (py_get _ _ _) as [accumulated|]; [|reflexivity].
  destruct (truthy (heap w) accumulated); [|reflexivity].
  destruct (py_getitem _ _ _) as [accumulated'|]; [|reflexivity].
  destruct (py_dict _ _ _); reflexivity.
Qed.

Lemma fresh_loc_None (h : Heap) : h !! fresh (dom h) = None.
Proof. apply not_elem_of_dom, is_fresh. Qed.

(** The second half of [render_template]: once the response object
    exists, the text is produced and the three properties are assigned. *)
Lemma render_template_tail (config_dict : nat -> Config) (template_name : string)
    (request context : PyVal) (app_key encoding : string) (l : loc)
    (r : Response) (w : World) :
  heap w !! l = Some (OResponse r) ->
  (text <- render_string config_dict template_name request context (Some app_key);;
   set_response l (with_content_type "text/html");;
   set_response l (with_charset encoding);;
   set_response l (with_text text);;
   ret (VRef l)) w
  = match render_string config_dict template_name request context (Some app_key) w with
    | (Ok text, w') =>
        (Ok (VRef l),
         set_heap (<[l := OResponse (mkResponse (resp_status r) "text/html"
                                       (Some encoding) (Some text))]> (heap w')) w')
    | (Raise e, w') => (Raise e, w')
    end.
Proof.
  intros Hl.
  pose proof (render_string_heap config_dict template_name request context
                (Some app_key) w) as Hheap.
  mstep.
  destruct (render_string config_dict template_name request context
              (Some app_key) w) as [[text|e] w'] eqn:Hrs; [|reflexivity].
  cbn [snd] in Hheap. unfold set_response.
  rewrite Hheap, (obj_at_lookup _ _ _ Hl). cbn [heap set_heap].
  unfold obj_at. rewrite lookup_insert_eq. cbn [default from_option id heap set_heap].
  rewrite lookup_insert_eq. cbn [default from_option id heap set_heap trace].
  rewrite !insert_insert_eq. reflexivity.
Qed.

(** What a call of [render_template] does, in terms of the call of
    [render_string] it makes. *)
Lemma render_template_run
    (config_dict : nat -> Config) (template_name : string)
    (request context : PyVal) (app_key encoding : option string)
    (status : option Z) (w : World) :
  exists (context' : PyVal) (w2 : World),
    (context = VNone -> mapping_items (heap w2) context' = Some ∅)
    /\ (context <> VNone -> context' = context)
    /\ (forall l', is_Some (heap w !! l') -> heap w2 !! l' = heap w !! l')
    /\ trace w2 = trace w
    /\ match render_string config_dict template_name request context'
               (Some (default APP_KEY app_key)) w2 with
       | (Raise e, w3) =>
           render_template config_dict template_name request context
             app_key encoding status w = (Raise e, w3)
       | (Ok text, w3) =>
           exists (l : loc) (w' : World),
             render_template config_dict template_name request context
               app_key encoding status w = (Ok (VRef l), w')
             /\ heap w !! l = None
             /\ heap w' !! l
                = Some (OResponse (mkResponse (default 200 status) "text/html"
                                     (Some (default "utf-8" encoding)) (Some text)))
             /\ (forall l', l' <> l -> heap w' !! l' = heap w3 !! l')
             /\ trace w' = trace w3
       end.
Proof.
  set (l := fresh (dom (heap w))).
  set (r0 := mkResponse (default 200 status) "application/octet-stream" None None).
  set (w1 := set_heap (<[l := OResponse r0]> (heap w)) w).
  assert (Hl : heap w !! l = None) by apply fresh_loc_None.
  assert (Hframe1 : forall l', is_Some (heap w !! l') -> heap w1 !! l' = heap w !! l').
  { intros l' [o Ho]. cbn. apply lookup_insert_ne. intros <-. congruence. }
  assert (Hfinish : forall context' w2,
    heap w2 !! l = Some (OResponse r0) ->
    render_template config_dict template_name request context
      app_key encoding status w
    = (text <- render_string config_dict template_name request context'
                 (Some (default APP_KEY app_key));;
       set_response l (with_content_type "text/html");;
       set_response l (with_charset (default "utf-8" encoding));;
       set_response l (with_text text);;
       ret (VRef l)) w2 ->
    match render_string config_dict template_name request context'
            (Some (default APP_KEY app_key)) w2 with
    | (Raise e, w3) =>
        render_template config_dict template_name request context
          app_key encoding status w = (Raise e, w3)
    | (Ok text, w3) =>
        exists (l : loc) (w' : World),
          render_template config_dict template_name request context
            app_key encoding status w = (Ok (VRef l), w')
          /\ heap w !! l = None
          /\ heap w' !! l
             = Some (OResponse (mkResponse (default 200 status) "text/html"
                                  (Some (default "utf-8" encoding)) (Some text)))
          /\ (forall l', l' <> l -> heap w' !! l' = heap w3 !! l')
          /\ trace w' = trace w3
    end).
  { intros context' w2 Hw2 Heq. rewrite Heq.
    rewrite (render_template_tail _ _ _ _ _ _ _ _ _ Hw2).
    destruct (render_string config_dict template_name request context'
                (Some (default APP_KEY app_key)) w2) as [[text|e] w3];
      [|reflexivity].
    eexists l, _. split; [reflexivity|]. split; [exact Hl|].
    cbn [heap set_heap trace]. split; [apply lookup_insert_eq|].
    split; [|reflexivity]. intros l' Hne. by apply lookup_insert_ne. }
  destruct (decide (context = VNone)) as [->|Hctx].
  - set (d := fresh (dom (heap w1))).
    exists (VRef d), (set_heap (<[d := ODict ∅]> (heap w1)) w1).
    assert (Hd : heap w1 !! d = None) by apply fresh_loc_None.
    split; [|split; [|split; [|split]]].
    + intros _. unfold mapping_items, obj_at. cbn [heap set_heap].
      by rewrite lookup_insert_eq.
    + done.
    + intros l' Hl'. cbn [heap set_heap]. rewrite lookup_insert_ne.
      * by apply Hframe1.
      * intros Heq. rewrite Heq, (Hframe1 _ Hl') in Hd. rewrite Hd in Hl'.
        by destruct Hl'.
    + reflexivity.
    + apply Hfinish; [|reflexivity].
      cbn [heap set_heap]. rewrite lookup_insert_ne.
      * apply lookup_insert_eq.
      * intros Heq. rewrite Heq in Hd. unfold w1 in Hd.
        cbn [heap set_heap] in Hd. by rewrite lookup_insert_eq in Hd.
  - exists context, w1.
    split; [done|]. split; [done|]. split; [exact Hframe1|].
    split; [reflexivity|].
    apply Hfinish; [apply lookup_insert_eq|].
    destruct context; done.
Qed.

Lemma render_template_ok_inv (config_dict : nat -> Config)
    (template_name : string) (request context : PyVal)
    (app_key encoding : option string) (status : option Z)
    (w w' : World) (response : PyVal) :
  render_template config_dict template_name request context app_key encoding
    status w = (Ok response, w') ->
  exists (l : loc) (text : string),
    response = VRef l
    /\ heap w !! l = None
    /\ heap w' !! l
       = Some (OResponse (mkResponse (default 200 status) "text/html"
                            (Some (default "utf-8" encoding)) (Some text))).
Proof.
  intros Hrun.
  destruct (render_template_run config_dict template_name request context
              app_key encoding status w)
    as (context' & w2 & _ & _ & _ & _ & Hcall).
  destruct (render_string config_dict template_name request context'
              (Some (default APP_KEY app_key)) w2) as [[text|e] w3].
  - destruct Hcall as (l & w'' & Heq & Hfresh & Hl & _).
    rewrite Hrun in Heq. injection Heq as -> ->. by exists l, text.
  - rewrite Hrun in Hcall. discriminate.
Qed.

(** C5: [render_template] treats [None] as the empty mapping, leaves the
    production of the text to [render_string], lets its errors through
    unchanged, and otherwise returns a new response object with the given
    status, content type [text/html], the given charset and the text as
    body. *)
Theorem render_template_builds_html_response
    (config_dict : nat -> Config) (template_name : string)
    (request context : PyVal) (app_key encoding : option string)
    (status : option Z) (w : World) :
  exists (context' : PyVal) (w2 : World),
    (context = VNone -> mapping_items (heap w2) context' = Some ∅)
    /\ (context <> VNone -> context' = context)
    /\ (forall l', is_Some (heap w !! l') -> heap w2 !! l' = heap w !! l')
    /\ trace w2 = trace w
    /\ match render_string config_dict template_name request context'
               (Some (default APP_KEY app_key)) w2 with
       | (Raise e, w3) =>
           render_template config_dict template_name request context
             app_key encoding status w = (Raise e, w3)
       | (Ok text, w3) =>
           exists (l : loc) (w' : World),
             render_template config_dict template_name request context
               app_key encoding status w = (Ok (VRef l), w')
             /\ heap w !! l = None
             /\ heap w' !! l
                = Some (OResponse (mkResponse (default 200 status) "text/html"
                                     (Some (default "utf-8" encoding)) (Some text)))
             /\ (forall l', l' <> l -> heap w' !! l' = heap w3 !! l')
             /\ trace w' = trace w3
       end.
Proof. apply render_template_run. Qed.

(** ** The [template] decorator *)

(** C3: when the awaited handler returns a response object, the wrapped
    handler returns that very reference and leaves the world exactly as
    the handler left it: no object is touched and no engine call is
    made. *)
Theorem template_passthrough
    (config_dict : nat -> Config) (template_name : string)
    (app_key encoding : option string) (status : option Z)
    (func : Handler) (args : list PyVal) (w w1 : World) (response : PyVal) :
  call func args (warned func w) = (Ok response, w1) ->
  isinstance_StreamResponse (heap w1) response = true ->
  template config_dict template_name app_key encoding status func args w
    = (Ok response, w1)
  /\ render_calls
       (template config_dict template_name app_key encoding status func args w).2
     = render_calls w1.
Proof.
  intros Hcall Hresp.
  assert (Heq : template config_dict template_name app_key encoding status
                  func args w = (Ok response, w1)).
  { unfold template, warned in *. mstep.
    destruct (is_coroutine_function func); mstep; rewrite Hcall; mstep;
      by rewrite Hresp. }
  by rewrite Heq.
Qed.

(** When the handler returns something that is not a response, the
    wrapped handler resolves the request and goes on to render. *)
Lemma template_render_path
    (config_dict : nat -> Config) (template_name : string)
    (app_key encoding : option string) (status : option Z)
    (func : Handler) (args : list PyVal) (w w1 : World)
    (context request : PyVal) :
  call func args (warned func w) = (Ok context, w1) ->
  isinstance_StreamResponse (heap w1) context = false ->
  request_by_view_class (heap w1) args = Some request ->
  template config_dict template_name app_key encoding status func args w
  = render_and_set_status config_dict template_name request context
      (default APP_KEY app_key) (default "utf-8" encoding)
      (default 200 status) w1.
Proof.
  intros Hcall Hctx Hreq.
  assert (Hstart :
    template config_dict template_name app_key encoding status func args w
    = match args with
      | [] => (Raise (IndexError "tuple index out of range"), w1)
      | first :: _ =>
          (request <- (if isinstance_AbstractView (heap w1) first
                       then ask (getattr_request first)
                       else ret (default VNone (last args)));;
           render_and_set_status config_dict template_name request context
             (default APP_KEY app_key) (default "utf-8" encoding)
             (default 200 status)) w1
      end).
  { unfold template, warned in *. mstep.
    destruct (is_coroutine_function func); mstep; rewrite Hcall; mstep;
      rewrite Hctx; destruct args; reflexivity. }
  rewrite Hstart. unfold request_by_view_class in Hreq.
  destruct args as [|first rest]; [discriminate|].
  destruct (isinstance_AbstractView (heap w1) first); mstep.
  - unfold getattr_request. rewrite Hreq. reflexivity.
  - rewrite Hreq. reflexivity.
Qed.

Lemma render_and_set_status_run (config_dict : nat -> Config)
    (template_name : string) (request context : PyVal)
    (app_key encoding : string) (status : Z) (w : World) :
  match render_template config_dict template_name request context
          (Some app_key) (Some encoding) None w with
  | (Raise e, w2) =>
      render_and_set_status config_dict template_name request context
        app_key encoding status w = (Raise e, w2)
  | (Ok response, w2) =>
      exists (l : loc) (r : Response),
        response = VRef l
        /\ heap w !! l = None
        /\ heap w2 !! l = Some (OResponse r)
        /\ resp_status r = 200
        /\ render_and_set_status config_dict template_name request context
             app_key encoding status w
           = (Ok (VRef l),
              set_heap (<[l := OResponse (with_status status r)]> (heap w2)) w2)
  end.
Proof.
  unfold render_and_set_status. mstep.
  destruct (render_template config_dict template_name request context
              (Some app_key) (Some encoding) None w)
    as [[response|e] w2] eqn:Hrun; [|reflexivity].
  destruct (render_template_ok_inv _ _ _ _ _ _ _ _ _ _ Hrun)
    as (l & text & -> & Hfresh & Hl).
  eexists l, _. split; [reflexivity|]. split; [exact Hfresh|].
  split; [exact Hl|]. split; [reflexivity|].
  unfold set_response. by rewrite (obj_at_lookup _ _ _ Hl).
Qed.

(** C4: when the handler returns a context, the response that comes back
    from [render_template] (built with the default status 200) has its
    status replaced by the status the decorator was configured with; an
    error of [render_template] propagates. *)
Theorem template_status_override
    (config_dict : nat -> Config) (template_name : string)
    (app_key encoding : option string) (status : option Z)
    (func : Handler) (args : list PyVal) (w w1 : World)
    (context request : PyVal) :
  call func args (warned func w) = (Ok context, w1) ->
  isinstance_StreamResponse (heap w1) context = false ->
  request_by_view_class (heap w1) args = Some request ->
  match render_template config_dict template_name request context
          (Some (default APP_KEY app_key)) (Some (default "utf-8" encoding))
          None w1 with
  | (Raise e, w2) =>
      template config_dict template_name app_key encoding status func args w
      = (Raise e, w2)
  | (Ok response, w2) =>
      exists (l : loc) (r r' : Response) (w' : World),
        response = VRef l
        /\ heap w2 !! l = Some (OResponse r)
        /\ resp_status r = 200
        /\ template config_dict template_name app_key encoding status func
             args w = (Ok (VRef l), w')
        /\ heap w' !! l = Some (OResponse r')
        /\ resp_status r' = default 200 status
        /\ resp_content_type r' = resp_content_type r
        /\ resp_charset r' = resp_charset r
        /\ resp_text r' = resp_text r
        /\ (forall l', l' <> l -> heap w' !! l' = heap w2 !! l')
        /\ trace w' = trace w2
  end.
Proof.
  intros Hcall Hctx Hreq.
  rewrite (template_render_path _ _ _ _ _ _ _ _ _ _ _ Hcall Hctx Hreq).
  pose proof (render_and_set_status_run config_dict template_name request
                context (default APP_KEY app_key) (default "utf-8" encoding)
                (default 200 status) w1) as Hrun.
  destruct (render_template config_dict template_name request context
              (Some (default APP_KEY app_key))
              (Some (default "utf-8" encoding)) None w1)
    as [[response|e] w2]; [|exact Hrun].
  destruct Hrun as (l & r & -> & _ & Hl & Hstatus & Heq).
  eexists l, r, _, _. split; [reflexivity|]. split; [exact Hl|].
  split; [exact Hstatus|]. split; [exact Heq|].
  cbn [heap set_heap trace]. split; [apply lookup_insert_eq|].
  repeat split. intros l' Hne. by apply lookup_insert_ne.
Qed.

(** C9, as the code has it: when the handler returns a context, the
    request handed to [render_template] is the [request] of the first
    positional argument if that argument is an instance of the
    class-based-view base class, and the last positional argument
    otherwise, whatever attributes the first argument exposes. *)
Theorem template_resolves_request
    (config_dict : nat -> Config) (template_name : string)
    (app_key encoding : option string) (status : option Z)
    (func : Handler) (first : PyVal) (rest : list PyVal) (w w1 : World)
    (context : PyVal) :
  call func (first :: rest) (warned func w) = (Ok context, w1) ->
  isinstance_StreamResponse (heap w1) context = false ->
  exists request : PyVal,
    (if isinstance_AbstractView (heap w1) first
     then request_attribute (heap w1) first = Some request
     else last (first :: rest) = Some request)
    /\ template config_dict template_name app_key encoding status func
         (first :: rest) w
       = render_and_set_status config_dict template_name request context
           (default APP_KEY app_key) (default "utf-8" encoding)
           (default 200 status) w1.
Proof.
  intros Hcall Hctx.
  assert (Hsome : is_Some (request_by_view_class (heap w1) (first :: rest))).
  { unfold request_by_view_class, isinstance_AbstractView, request_attribute.
    destruct first as [| | | |l]; try apply last_is_Some; try done.
    destruct (obj_at (heap w1) l); try apply last_is_Some; try done. }
  destruct Hsome as [request Hreq]. exists request. split.
  - unfold request_by_view_class in Hreq.
    by destruct (isinstance_AbstractView (heap w1) first).
  - by apply (template_render_path _ _ _ _ _ _ _ _ _ _ _ Hcall Hctx).
Qed.

(** ** [context_processors_middleware] *)

Lemma merge_all_snoc (acc : Ctx) (ms : list Ctx) (m : Ctx) :
  merge_all acc (ms ++ [m]) = merge (merge_all acc ms) m.
Proof. unfold merge_all. by rewrite fold_left_app. Qed.

(** A key no processor returned keeps its initial binding. *)
Lemma merge_all_lookup_untouched (k : string) (ms : list Ctx) (acc : Ctx) :
  (forall m, m ∈ ms -> m !! k = None) ->
  merge_all acc ms !! k = acc !! k.
Proof.
  revert acc. induction ms as [|m ms IH]; intros acc Hnone; [done|].
  cbn [merge_all fold_left]. fold (merge_all (merge acc m) ms).
  rewrite IH.
  - unfold merge. apply lookup_union_r, Hnone. by left.
  - intros m' Hm'. apply Hnone. by right.
Qed.

(** A key takes the value given by the last processor that returned it. *)
Lemma merge_all_lookup_last (k : string) (x : PyVal) (ms1 ms2 : list Ctx)
    (m acc : Ctx) :
  m !! k = Some x ->
  (forall m', m' ∈ ms2 -> m' !! k = None) ->
  merge_all acc (ms1 ++ m :: ms2) !! k = Some x.
Proof.
  intros Hm Hlater. unfold merge_all.
  rewrite fold_left_app. cbn [fold_left].
  fold (merge_all (merge (fold_left merge ms1 acc) m) ms2).
  rewrite (merge_all_lookup_untouched _ _ _ Hlater).
  unfold merge. by apply lookup_union_Some_l.
Qed.

(** The loop over the processors. *)
Lemma for_each_processor (l d : loc) (store : Ctx) (app : nat) (h : Heap)
    (ps : list Processor) :
  h !! l = Some (ORequest store app) ->
  store !! REQUEST_CONTEXT_KEY = Some (VRef d) ->
  d <> l ->
  forall (ms : list Ctx) (acc : Ctx) (tr : list Event),
    returns_in_order (VRef l) h d acc ps ms ->
    for_each ps (fun processor =>
        accumulated <- ask (py_getitem (VRef l) REQUEST_CONTEXT_KEY);;
        update <- ask (getattr_update accumulated);;
        result <- call_processor processor (VRef l);;
        call_update update result)
      (mkWorld (<[d := ODict acc]> h) tr)
    = (Ok tt, mkWorld (<[d := ODict (merge_all acc ms)]> h)
                (tr ++ processor_events ps ms)).
Proof.
  intros Hl Hkey Hne.
  induction ps as [|p ps IH]; intros ms acc tr Hret.
  - destruct ms; [|done]. cbn. by rewrite app_nil_r.
  - destruct ms as [|m ms]; [done|]. destruct Hret as [Hp Hret].
    cbn [for_each]. mstep.
    assert (Hreq : obj_at (<[d := ODict acc]> h) l = ORequest store app).
    { apply obj_at_lookup. by rewrite lookup_insert_ne. }
    assert (Hdict : obj_at (<[d := ODict acc]> h) d = ODict acc).
    { apply obj_at_lookup, lookup_insert_eq. }
    unfold py_getitem, mapping_items. cbn [heap]. rewrite Hreq, Hkey.
    unfold getattr_update. rewrite Hdict.
    unfold call_processor. cbn [heap]. rewrite Hp.
    unfold call_update, add_event. cbn [heap trace]. rewrite Hdict.
    unfold set_heap. cbn [heap trace]. rewrite insert_insert_eq.
    fold (merge acc m). rewrite (IH ms (merge acc m) _ Hret).
    unfold processor_events. cbn [fmap list_fmap zip_with merge_all fold_left].
    by rewrite <- app_assoc.
Qed.

(** The whole middleware: the handler is called in the world where the
    accumulated dict holds the fold of the returned mappings and the
    processor calls are on record, in order. *)
Lemma middleware_run (config_dict : nat -> Config) (l : loc) (store : Ctx)
    (app : nat) (ps : list Processor) (handler : PyVal -> M PyVal)
    (w : World) (d : loc) (acc0 : Ctx) (h1 : Heap) (ms : list Ctx) :
  heap w !! l = Some (ORequest store app) ->
  config_dict app !! APP_CONTEXT_PROCESSORS_KEY = Some (AProcessors ps) ->
  entry_state w l store app d acc0 h1 ->
  returns_in_order (VRef l) h1 d acc0 ps ms ->
  context_processors_middleware config_dict (VRef l) handler w
  = handler (VRef l)
      (mkWorld (<[d := ODict (merge_all acc0 ms)]> h1)
         (trace w ++ processor_events ps ms)).
Proof.
  intros Hl Hps Hentry Hret.
  unfold context_processors_middleware.
  set (body := fun processor : Processor => bind _ _).
  mstep.
  unfold py_contains, mapping_items. rewrite (obj_at_lookup _ _ _ Hl).
  destruct Hentry as [Hkey | d acc0 Hkey Hd].
  - set (d := fresh (dom (heap w))) in *.
    assert (Hd : heap w !! d = None) by apply fresh_loc_None.
    assert (Hne : d <> l) by (intros Heq; rewrite Heq in Hd; congruence).
    rewrite Hkey. rewrite bool_decide_eq_false_2 by (by intros [? ?]).
    mstep. unfold alloc. fold d. unfold py_setitem, set_heap. cbn [heap trace].
    unfold obj_at at 1. rewrite lookup_insert_ne, Hl by done.
    cbn [default from_option id].
    set (h1 := <[l := ORequest (<[REQUEST_CONTEXT_KEY := VRef d]> store) app]>
                 (<[d := ODict ∅]> (heap w))) in *.
    assert (Hl1 : h1 !! l
                  = Some (ORequest (<[REQUEST_CONTEXT_KEY := VRef d]> store) app))
      by apply lookup_insert_eq.
    unfold getattr_config_dict. cbn [heap].
    rewrite (obj_at_lookup _ _ _ Hl1), Hps.
    assert (Hid : <[d := ODict ∅]> h1 = h1).
    { apply insert_id. unfold h1. rewrite lookup_insert_ne by done.
      apply lookup_insert_eq. }
    rewrite <- Hid at 1. unfold body.
    rewrite (for_each_processor l d _ app h1 ps Hl1 (lookup_insert_eq _ _ _) Hne
               ms ∅ (trace w) Hret).
    reflexivity.
  - assert (Hne : d <> l) by (intros Heq; rewrite Heq in Hd; congruence).
    rewrite Hkey. rewrite bool_decide_eq_true_2 by eauto.
    mstep. unfold getattr_config_dict.
    rewrite (obj_at_lookup _ _ _ Hl), Hps.
    assert (Hw : w = mkWorld (<[d := ODict acc0]> (heap w)) (trace w)).
    { destruct w as [h tr]. cbn in *. by rewrite insert_id. }
    rewrite Hw at 1. unfold body.
    rewrite (for_each_processor l d store app (heap w) ps Hl Hkey Hne
               ms acc0 (trace w) Hret).
    reflexivity.
Qed.

(** C2: the middleware awaits the registered processors in registration
    order, the accumulated context of the request ends up as the
    left-to-right fold of the returned mappings over what was there
    before (nothing, for a request without an entry), and on a key
    returned more than once the later processor wins. *)
Theorem middleware_accumulates_in_order
    (config_dict : nat -> Config) (l : loc) (store : Ctx) (app : nat)
    (ps : list Processor) (handler : PyVal -> M PyVal) (w : World)
    (d : loc) (acc0 : Ctx) (h1 : Heap) (ms : list Ctx) :
  heap w !! l = Some (ORequest store app) ->
  config_dict app !! APP_CONTEXT_PROCESSORS_KEY = Some (AProcessors ps) ->
  entry_state w l store app d acc0 h1 ->
  returns_in_order (VRef l) h1 d acc0 ps ms ->
  exists w' : World,
    context_processors_middleware config_dict (VRef l) handler w
    = handler (VRef l) w'
    /\ trace w' = trace w ++ zip_with EvProcessor (proc_name <$> ps) ms
    /\ accumulated_context (heap w') l = Some (d, fold_left merge ms acc0)
    /\ (forall (k : string) (x : PyVal) (ms1 ms2 : list Ctx) (m : Ctx),
          ms = ms1 ++ m :: ms2 ->
          m !! k = Some x ->
          (forall m', m' ∈ ms2 -> m' !! k = None) ->
          fold_left merge ms acc0 !! k = Some x).
Proof.
  intros Hl Hps Hentry Hret.
  eexists. split; [exact (middleware_run _ _ _ _ _ _ _ _ _ _ _ Hl Hps Hentry Hret)|].
  split; [reflexivity|]. split.
  - unfold accumulated_context. cbn [heap].
    assert (Hne : d <> l /\ exists store',
              h1 !! l = Some (ORequest store' app)
              /\ store' !! REQUEST_CONTEXT_KEY = Some (VRef d)).
    { destruct Hentry as [Hkey | d acc0 Hkey Hd].
      - split.
        + intros Heq. pose proof (fresh_loc_None (heap w)) as Hf.
          rewrite Heq in Hf. congruence.
        + eexists. split; [apply lookup_insert_eq|apply lookup_insert_eq].
      - split; [intros Heq; rewrite Heq in Hd; congruence|eauto]. }
    destruct Hne as (Hne & store' & Hl1 & Hkey').
    unfold obj_at. rewrite lookup_insert_ne, Hl1 by done.
    cbn [default from_option id]. rewrite Hkey', lookup_insert_eq. reflexivity.
  - intros k x ms1 ms2 m -> Hm Hlater.
    by apply (merge_all_lookup_last k x ms1 ms2 m acc0).
Qed.

(** C10: when the store of the request already holds an accumulated
    context, the middleware keeps that very dict: the store still refers
    to the same object, no other object changes, and the dict is updated
    in place, so that a key no processor returned keeps its binding and a
    key some processor returned takes the processor's value. *)
Theorem middleware_updates_existing_context_in_place
    (config_dict : nat -> Config) (l : loc) (store : Ctx) (app : nat)
    (ps : list Processor) (handler : PyVal -> M PyVal) (w : World)
    (d : loc) (acc0 : Ctx) (ms : list Ctx) :
  heap w !! l = Some (ORequest store app) ->
  config_dict app !! APP_CONTEXT_PROCESSORS_KEY = Some (AProcessors ps) ->
  store !! REQUEST_CONTEXT_KEY = Some (VRef d) ->
  heap w !! d = Some (ODict acc0) ->
  returns_in_order (VRef l) (heap w) d acc0 ps ms ->
  exists (w' : World) (acc : Ctx),
    context_processors_middleware config_dict (VRef l) handler w
    = handler (VRef l) w'
    /\ heap w' !! l = Some (ORequest store app)
    /\ heap w' !! d = Some (ODict acc)
    /\ (forall l', l' <> d -> heap w' !! l' = heap w !! l')
    /\ acc = fold_left merge ms acc0
    /\ (forall k : string,
          (forall m, m ∈ ms -> m !! k = None) -> acc !! k = acc0 !! k)
    /\ (forall (k : string) (x : PyVal) (ms1 ms2 : list Ctx) (m : Ctx),
          ms = ms1 ++ m :: ms2 ->
          m !! k = Some x ->
          (forall m', m' ∈ ms2 -> m' !! k = None) ->
          acc !! k = Some x).
Proof.
  intros Hl Hps Hkey Hd Hret.
  assert (Hne : d <> l) by (intros Heq; rewrite Heq in Hd; congruence).
  eexists _, _. split.
  { exact (middleware_run _ _ _ _ _ _ _ _ _ _ _ Hl Hps
             (entry_present w l store app d acc0 Hkey Hd) Hret). }
  cbn [heap]. split; [by rewrite lookup_insert_ne|].
  split; [apply lookup_insert_eq|].
  split; [intros l' Hl'; by rewrite lookup_insert_ne|].
  split; [reflexivity|]. split.
  - intros k Hnone. by apply merge_all_lookup_untouched.
  - intros k x ms1 ms2 m -> Hm Hlater.
    by apply (merge_all_lookup_last k x ms1 ms2 m acc0).
Qed.

(** ** The properties at work on the example application *)

(** The handler's [x = 2] wins over the accumulated [x = 1]. *)
Lemma render_string_renders_effective_context_witness :
  render_string ex_config "t.html" (VRef 8) (VRef 9) None ex_world
  = (Ok "2",
     add_event
       (EvRender true "t.html"
          (effective_context (Some {[ "x" := VInt 1; "a" := VInt 0 ]})
             {[ "x" := VInt 2 ]}))
       ex_world)
  /\ effective_context (Some {[ "x" := VInt 1; "a" := VInt 0 ]})
       {[ "x" := VInt 2 ]} !! "x" = Some (VInt 2).
Proof.
  destruct (render_string_renders_effective_context ex_config "t.html" 8
              (VRef 9) None {[ REQUEST_CONTEXT_KEY := VRef 7 ]} 0%nat ex_env
              ex_template {[ "x" := VInt 2 ]}
              (Some {[ "x" := VInt 1; "a" := VInt 0 ]}) ex_world)
    as (Hrun & Hwins & _).
  - reflexivity.
  - reflexivity.
  - reflexivity.
  - reflexivity.
  - exists (VRef 7). split; reflexivity.
  - split; [exact Hrun|]. apply Hwins. reflexivity.
Defined.

Lemma render_string_environment_not_configured_witness :
  render_string ex_config "t.html" (VRef 3) (VRef 2) None ex_world
  = (Raise (HTTPInternalServerError (not_initialized_text APP_KEY)
              (not_initialized_text APP_KEY) None), ex_world)
  /\ str_contains APP_KEY (not_initialized_text APP_KEY) = true.
Proof.
  apply (render_string_environment_not_configured ex_config "t.html" 3
           (VRef 2) None ∅ 1%nat ex_world); reflexivity.
Defined.

Lemma render_string_template_not_found_witness :
  render_string ex_config "u.html" (VRef 1) (VRef 2) None ex_world
  = (Raise (HTTPInternalServerError (not_found_text "u.html")
              (not_found_text "u.html") (Some "u.html")), ex_world)
  /\ str_contains "u.html" (not_found_text "u.html") = true.
Proof.
  apply (render_string_template_not_found ex_config "u.html" 1 (VRef 2) None
           ∅ 0%nat ex_env "u.html" ex_world); reflexivity.
Defined.

(** A plain sequence as context. *)
Lemma render_string_invalid_context_witness :
  render_string ex_config "t.html" (VRef 1) (VList [1; 2]) None ex_world
  = (Raise (HTTPInternalServerError
              "context should be mapping, not <class 'list'>"
              "context should be mapping, not <class 'list'>" None), ex_world)
  /\ str_contains "list" "context should be mapping, not <class 'list'>" = true.
Proof.
  apply (render_string_invalid_context ex_config "t.html" 1 (VList [1; 2])
           None ∅ 0%nat ex_env ex_template ex_world); reflexivity.
Defined.

(** A bare function that returns the response 6: the response comes back
    as it is, after the deprecation warning. *)
Lemma template_passthrough_witness :
  template ex_config "t.html" None None (Some 201) ex_response_handler
    [VRef 1] ex_world
  = (Ok (VRef 6), warned ex_response_handler ex_world)
  /\ render_calls
       (template ex_config "t.html" None None (Some 201) ex_response_handler
          [VRef 1] ex_world).2
     = render_calls (warned ex_response_handler ex_world).
Proof.
  apply (template_passthrough ex_config "t.html" None None (Some 201)
           ex_response_handler [VRef 1] ex_world); reflexivity.
Defined.

(** A decorator configured with status 201 around a handler that returns
    [{'x': 1}]. *)
Lemma template_status_override_witness :
  exists (l : loc) (r : Response) (w' : World),
    template ex_config "t.html" None None (Some 201) ex_context_handler
      [VRef 1] ex_world = (Ok (VRef l), w')
    /\ heap w' !! l = Some (OResponse r)
    /\ resp_status r = 201
    /\ resp_text r = Some "1".
Proof.
  pose proof (template_status_override ex_config "t.html" None None (Some 201)
                ex_context_handler [VRef 1] ex_world ex_world (VRef 2) (VRef 1)
                eq_refl eq_refl eq_refl) as H.
  destruct (render_template ex_config "t.html" (VRef 1) (VRef 2)
              (Some (default APP_KEY None)) (Some (default "utf-8" None))
              None ex_world) as [[response|e] w2] eqn:Hrun.
  - destruct H as (l & r & r' & w' & -> & Hl & _ & Heq & Hl' & Hstatus & _ & _
                   & Htext & _).
    exists l, r', w'. split; [exact Heq|]. split; [exact Hl'|].
    split; [exact Hstatus|]. rewrite Htext.
    vm_compute in Hrun. injection Hrun as <- <-.
    vm_compute in Hl. by injection Hl as <-.
  - vm_compute in Hrun. discriminate.
Defined.

(** A class-based view gives its request; a plain handler is given the
    request as its last argument. *)
Lemma template_resolves_request_witness :
  template ex_config "t.html" None None None ex_context_handler
    [VRef 5] ex_world
  = render_and_set_status ex_config "t.html" (VRef 1) (VRef 2) APP_KEY
      "utf-8" 200 ex_world
  /\ template ex_config "t.html" None None None ex_context_handler
       [VRef 4; VRef 1] ex_world
     = render_and_set_status ex_config "t.html" (VRef 1) (VRef 2) APP_KEY
         "utf-8" 200 ex_world.
Proof.
  split.
  - destruct (template_resolves_request ex_config "t.html" None None None
                ex_context_handler (VRef 5) [] ex_world ex_world (VRef 2)
                eq_refl eq_refl) as (request & Hreq & Heq).
    vm_compute in Hreq. injection Hreq as <-. exact Heq.
  - destruct (template_resolves_request ex_config "t.html" None None None
                ex_context_handler (VRef 4) [VRef 1] ex_world ex_world (VRef 2)
                eq_refl eq_refl) as (request & Hreq & Heq).
    vm_compute in Hreq. injection Hreq as <-. exact Heq.
Defined.

(** The first argument 4 exposes an attribute [request] (the request 3
    of the application that was never set up) without being a view: the
    wrapped handler renders with the last argument, the request 1, where
    rendering with the attribute would have failed. *)
Lemma template_request_by_attribute_counterexample :
  request_attribute (heap ex_world) (VRef 4) = Some (VRef 3)
  /\ request_by_attribute (heap ex_world) [VRef 4; VRef 1] = Some (VRef 3)
  /\ (template ex_config "t.html" None None None ex_context_handler
        [VRef 4; VRef 1] ex_world).1
     = Ok (VRef 10)
  /\ (render_and_set_status ex_config "t.html" (VRef 3) (VRef 2) APP_KEY
        "utf-8" 200 ex_world).1
     = Raise (HTTPInternalServerError (not_initialized_text APP_KEY)
                (not_initialized_text APP_KEY) None)
  /\ template ex_config "t.html" None None None ex_context_handler
       [VRef 4; VRef 1] ex_world
     <> render_and_set_status ex_config "t.html" (VRef 3) (VRef 2) APP_KEY
          "utf-8" 200 ex_world.
Proof.
  repeat split; try (vm_compute; reflexivity).
  intros H. apply (f_equal fst) in H. vm_compute in H. discriminate.
Qed.

(** P1 returns [{a: 1}], then P2 returns [{a: 2}]: the request that had
    no accumulated context ends up with [a = 2]. *)
Lemma middleware_accumulates_in_order_witness :
  exists (w' : World) (d : loc) (acc : Ctx),
    context_processors_middleware ex_config (VRef 1) (fun r => ret r) ex_world
    = (Ok (VRef 1), w')
    /\ trace w' = [EvProcessor "p1" {[ "a" := VInt 1 ]};
                   EvProcessor "p2" {[ "a" := VInt 2 ]}]
    /\ accumulated_context (heap w') 1 = Some (d, acc)
    /\ acc !! "a" = Some (VInt 2).
Proof.
  destruct (middleware_accumulates_in_order ex_config 1 ∅ 0%nat
              [ex_p1; ex_p2] (fun r => ret r) ex_world _ _ _
              [{[ "a" := VInt 1 ]}; {[ "a" := VInt 2 ]}]
              eq_refl eq_refl (entry_absent ex_world 1 ∅ 0%nat (lookup_empty _))
              (conj eq_refl (conj eq_refl I)))
    as (w' & Hrun & Htrace & Hacc & Hlast).
  eexists w', _, _. split; [exact Hrun|]. split; [exact Htrace|].
  split; [exact Hacc|].
  apply (Hlast "a" (VInt 2) [{[ "a" := VInt 1 ]}] [] {[ "a" := VInt 2 ]});
    [reflexivity|reflexivity|].
  intros m' Hm'. by apply elem_of_nil in Hm'.
Defined.

(** The request 8 already holds [{x: 1, a: 0}] at 7: after the
    middleware the store still refers to 7, [x] is still 1 and [a] has
    become 2. *)
Lemma middleware_updates_existing_context_in_place_witness :
  exists (w' : World) (acc : Ctx),
    context_processors_middleware ex_config (VRef 8) (fun r => ret r) ex_world
    = (Ok (VRef 8), w')
    /\ heap w' !! 8%positive
       = Some (ORequest {[ REQUEST_CONTEXT_KEY := VRef 7 ]} 0)
    /\ heap w' !! 7%positive = Some (ODict acc)
    /\ acc !! "x" = Some (VInt 1)
    /\ acc !! "a" = Some (VInt 2).
Proof.
  destruct (middleware_updates_existing_context_in_place ex_config 8
              {[ REQUEST_CONTEXT_KEY := VRef 7 ]} 0%nat [ex_p1; ex_p2]
              (fun r => ret r) ex_world 7
              {[ "x" := VInt 1; "a" := VInt 0 ]}
              [{[ "a" := VInt 1 ]}; {[ "a" := VInt 2 ]}]
              eq_refl eq_refl eq_refl eq_refl (conj eq_refl (conj eq_refl I)))
    as (w' & acc & Hrun & Hl & Hd & _ & _ & Hkeep & Hlast).
  exists w', acc. split; [exact Hrun|]. split; [exact Hl|]. split; [exact Hd|].
  split.
  - rewrite Hkeep; [reflexivity|].
    intros m Hm. apply elem_of_cons in Hm as [->|Hm]; [reflexivity|].
    apply elem_of_cons in Hm as [->|Hm]; [reflexivity|].
    by apply elem_of_nil in Hm.
  - apply (Hlast "a" (VInt 2) [{[ "a" := VInt 1 ]}] [] {[ "a" := VInt 2 ]});
      [reflexivity|reflexivity|].
    intros m' Hm'. by apply elem_of_nil in Hm'.
Defined.

(** * Further properties of the module *)

(** ** [render_string] *)

(** Once the environment and the template are found and the context is a
    mapping, what is left of [render_string] is the merge and the engine
    call. *)
Lemma render_string_found (config_dict : nat -> Config) (template_name : string)
    (l : loc) (context : PyVal) (app_key : option string) (store : Ctx)
    (app : nat) (env : Environment) (t : Template) (m : Ctx) (w : World) :
  heap w !! l = Some (ORequest store app) ->
  get_env (config_dict app) app_key = AEnv env ->
  get_template env template_name = Ok t ->
  mapping_items (heap w) context = Some m ->
  render_string config_dict template_name (VRef l) context app_key w
  = (effective <-
       (if truthy (heap w) (default VNone (store !! REQUEST_CONTEXT_KEY))
        then ask (py_dict (default VNone (store !! REQUEST_CONTEXT_KEY)) context)
        else ret m);;
     call_render (is_async env) t effective) w.
Proof.
  intros Hl Henv Htpl Hctx.
  unfold render_string, getattr_config_dict. mstep.
  rewrite (obj_at_lookup _ _ _ Hl). mstep.
  unfold get_env in Henv. rewrite Henv. mstep.
  rewrite Htpl. mstep.
  unfold isinstance_Mapping. rewrite Hctx. mstep.
  assert (Hreq : mapping_items (heap w) (VRef l) = Some store).
  { unfold mapping_items. by rewrite (obj_at_lookup _ _ _ Hl). }
  unfold py_get. rewrite Hreq. mstep.
  destruct (truthy (heap w) (default VNone (store !! REQUEST_CONTEXT_KEY)))
    eqn:Ht; mstep.
  - unfold py_getitem. rewrite Hreq.
    destruct (store !! REQUEST_CONTEXT_KEY) as [v|] eqn:Hv; [reflexivity|].
    discriminate.
  - by rewrite Hctx.
Qed.

(** X1: an exception of [get_template] other than [TemplateNotFound]
    is not wrapped: it leaves [render_string] as it is. *)
Theorem render_string_lookup_error_propagates
    (config_dict : nat -> Config) (template_name : string) (l : loc)
    (context : PyVal) (app_key : option string) (store : Ctx) (app : nat)
    (env : Environment) (e : Exc) (w : World) :
  heap w !! l = Some (ORequest store app) ->
  get_env (config_dict app) app_key = AEnv env ->
  get_template env template_name = Raise e ->
  (forall n, e <> TemplateNotFound n) ->
  render_string config_dict template_name (VRef l) context app_key w
  = (Raise e, w).
Proof.
  intros Hl Henv Htpl Hother.
  unfold render_string, getattr_config_dict. mstep.
  rewrite (obj_at_lookup _ _ _ Hl). mstep.
  unfold get_env in Henv. rewrite Henv. mstep.
  rewrite Htpl. destruct e; try reflexivity. by destruct (Hother name).
Qed.

(** X2: [render_string] only reads: it leaves every object as it is,
    calls the engine at most once, and calls it exactly once when it
    returns a text. *)
Theorem render_string_reads_only
    (config_dict : nat -> Config) (template_name : string)
    (request context : PyVal) (app_key : option string) (w : World) :
  let result := render_string config_dict template_name request context
                  app_key w in
  heap result.2 = heap w
  /\ (trace result.2 = trace w
      \/ exists a n c, trace result.2 = trace w ++ [EvRender a n c])
  /\ (forall text, result.1 = Ok text ->
        exists a n c, trace result.2 = trace w ++ [EvRender a n c]).
Proof.
  intros result. subst result.
  unfold render_string, getattr_config_dict. mstep.
  destruct request as [| | | |l];
    try (split; [reflexivity|split; [by left|discriminate]]).
  destruct (obj_at (heap w) l);
    try (split; [reflexivity|split; [by left|discriminate]]).
  destruct (default ANone _);
    try (split; [reflexivity|split; [by left|discriminate]]).
  destruct (get_template env template_name) as [t|[]];
    try (split; [reflexivity|split; [by left|discriminate]]).
  destruct (isinstance_Mapping (heap w) context); cbn [negb];
    [|split; [reflexivity|split; [by left|discriminate]]].
  destruct (py_get _ _ _) as [accumulated|];
    [|split; [reflexivity|split; [by left|discriminate]]].
  destruct (truthy (heap w) accumulated).
  - destruct (py_getitem _ _ _) as [accumulated'|];
      [|split; [reflexivity|split; [by left|discriminate]]].
    destruct (py_dict _ _ _);
      [|split; [reflexivity|split; [by left|discriminate]]].
    split; [reflexivity|]. split; [right|intros text _]; by eexists _, _, _.
  - split; [reflexivity|]. split; [right|intros text _]; by eexists _, _, _.
Qed.

(** X3: an entry of the store that is false as a condition ([None], 0,
    an empty string, list or dict) is not merged: the engine is given
    the handler's context alone. *)
Theorem render_string_ignores_falsy_entry
    (config_dict : nat -> Config) (template_name : string) (l : loc)
    (context : PyVal) (app_key : option string) (store : Ctx) (app : nat)
    (env : Environment) (t : Template) (m : Ctx) (v : PyVal) (w : World) :
  heap w !! l = Some (ORequest store app) ->
  get_env (config_dict app) app_key = AEnv env ->
  get_template env template_name = Ok t ->
  mapping_items (heap w) context = Some m ->
  store !! REQUEST_CONTEXT_KEY = Some v ->
  truthy (heap w) v = false ->
  render_string config_dict template_name (VRef l) context app_key w
  = ((if is_async env then render_async t m else render t m),
     add_event (EvRender (is_async env) (tpl_name t) m) w).
Proof.
  intros Hl Henv Htpl Hctx Hv Hfalse.
  rewrite (render_string_found _ _ _ _ _ _ _ _ _ _ _ Hl Henv Htpl Hctx).
  rewrite Hv. cbn [default from_option id]. rewrite Hfalse. reflexivity.
Qed.

(** X4: an entry of the store that is true as a condition but is not a
    mapping (a number, a string, a list of numbers, some other object)
    makes [dict(...)] fail: [render_string] raises a [TypeError] or a
    [ValueError], not an internal server error, and the engine is not
    called. *)
Theorem render_string_rejects_foreign_entry
    (config_dict : nat -> Config) (template_name : string) (l : loc)
    (context : PyVal) (app_key : option string) (store : Ctx) (app : nat)
    (env : Environment) (t : Template) (m : Ctx) (v : PyVal) (w : World) :
  heap w !! l = Some (ORequest store app) ->
  get_env (config_dict app) app_key = AEnv env ->
  get_template env template_name = Ok t ->
  mapping_items (heap w) context = Some m ->
  store !! REQUEST_CONTEXT_KEY = Some v ->
  truthy (heap w) v = true ->
  mapping_items (heap w) v = None ->
  exists msg : string,
    render_string config_dict template_name (VRef l) context app_key w
    = (Raise (TypeError msg), w)
    \/ render_string config_dict template_name (VRef l) context app_key w
       = (Raise (ValueError msg), w).
Proof.
  intros Hl Henv Htpl Hctx Hv Htrue Hforeign.
  rewrite (render_string_found _ _ _ _ _ _ _ _ _ _ _ Hl Henv Htpl Hctx).
  rewrite Hv. cbn [default from_option id]. rewrite Htrue. mstep.
  unfold py_dict. rewrite Hctx, Hforeign.
  destruct v as [|n|s|xs|d]; try (eexists; by left).
  - destruct s; [discriminate Htrue|eexists; by right].
  - destruct xs; [discriminate Htrue|eexists; by left].
Qed.

(** ** [render_template] *)

Lemma mapping_items_extends (h h' : Heap) (v : PyVal) (m : Ctx) :
  extends h h' -> mapping_items h v = Some m -> mapping_items h' v = Some m.
Proof.
  intros Hext. unfold mapping_items, obj_at. destruct v as [| | | |l]; try done.
  destruct (h !! l) as [o|] eqn:Hl; [|done].
  by rewrite (Hext _ _ Hl).
Qed.

Lemma holds_accumulated_extends (h h' : Heap) (store : Ctx) (acc : option Ctx) :
  extends h h' -> holds_accumulated h store acc -> holds_accumulated h' store acc.
Proof.
  intros Hext. destruct acc as [a|]; [|done].
  intros (v & Hv & Ha). exists v. split; [done|].
  by apply (mapping_items_extends h).
Qed.

(** The render path of [render_string], for any state of the store. *)
Lemma render_string_effective (config_dict : nat -> Config)
    (template_name : string) (l : loc) (context : PyVal)
    (app_key : option string) (store : Ctx) (app : nat) (env : Environment)
    (t : Template) (m : Ctx) (acc : option Ctx) (w : World) :
  heap w !! l = Some (ORequest store app) ->
  get_env (config_dict app) app_key = AEnv env ->
  get_template env template_name = Ok t ->
  mapping_items (heap w) context = Some m ->
  holds_accumulated (heap w) store acc ->
  render_string config_dict template_name (VRef l) context app_key w
  = ((if is_async env then render_async t (effective_context acc m)
      else render t (effective_context acc m)),
     add_event (EvRender (is_async env) (tpl_name t) (effective_context acc m)) w).
Proof.
  intros Hl Henv Htpl Hctx Hacc.
  rewrite (render_string_found _ _ _ _ _ _ _ _ _ _ _ Hl Henv Htpl Hctx).
  destruct acc as [a|]; unfold holds_accumulated in Hacc.
  - destruct Hacc as (v & Hv & Ha). rewrite Hv. cbn [default from_option id].
    destruct (truthy (heap w) v) eqn:Ht; mstep.
    + unfold py_dict. rewrite Hctx, Ha. reflexivity.
    + apply (truthy_mapping _ _ _ Ha) in Ht. subst a.
      unfold effective_context. by rewrite (right_id_L ∅ (∪) m).
  - rewrite Hacc. reflexivity.
Qed.

(** X5: [render_template] only adds objects: whatever the outcome, every
    object that existed before the call is as it was, the handler's
    context and the store of the request included. *)
Theorem render_template_keeps_objects
    (config_dict : nat -> Config) (template_name : string)
    (request context : PyVal) (app_key encoding : option string)
    (status : option Z) (w : World) :
  extends (heap w)
    (heap (render_template config_dict template_name request context app_key
             encoding status w).2).
Proof.
  destruct (render_template_run config_dict template_name request context
              app_key encoding status w)
    as (context' & w2 & _ & _ & Hframe & _ & Hcall).
  pose proof (render_string_heap config_dict template_name request context'
                (Some (default APP_KEY app_key)) w2) as Hheap.
  destruct (render_string config_dict template_name request context'
              (Some (default APP_KEY app_key)) w2) as [[text|e] w3].
  - destruct Hcall as (l & w' & -> & Hfresh & _ & Hothers & _).
    intros l' o Hl'. cbn [snd] in *. rewrite Hothers, Hheap.
    + rewrite Hframe; [done|eauto].
    + intros ->. congruence.
  - rewrite Hcall. intros l' o Hl'. cbn [snd] in *.
    rewrite Hheap, Hframe; [done|eauto].
Qed.

(** [render_template] from the request to the response, when the
    environment and the template are found. *)
Lemma render_template_effective (config_dict : nat -> Config)
    (template_name : string) (l : loc) (context : PyVal)
    (app_key encoding : option string) (status : option Z) (store : Ctx)
    (app : nat) (env : Environment) (t : Template) (m : Ctx)
    (acc : option Ctx) (w : World) :
  heap w !! l = Some (ORequest store app) ->
  get_env (config_dict app) app_key = AEnv env ->
  get_template env template_name = Ok t ->
  context_items (heap w) context = Some m ->
  holds_accumulated (heap w) store acc ->
  let effective := effective_context acc m in
  let event := EvRender (is_async env) (tpl_name t) effective in
  match (if is_async env then render_async t effective
         else render t effective) with
  | Ok text =>
      exists (lr : loc) (w' : World),
        render_template config_dict template_name (VRef l) context app_key
          encoding status w = (Ok (VRef lr), w')
        /\ heap w !! lr = None
        /\ heap w' !! lr
           = Some (OResponse (mkResponse (default 200 status) "text/html"
                                (Some (default "utf-8" encoding)) (Some text)))
        /\ extends (heap w) (heap w')
        /\ trace w' = trace w ++ [event]
  | Raise e =>
      exists w' : World,
        render_template config_dict template_name (VRef l) context app_key
          encoding status w = (Raise e, w')
        /\ extends (heap w) (heap w')
        /\ trace w' = trace w ++ [event]
  end.
Proof.
  intros Hl Henv Htpl Hctx Hacc effective event.
  destruct (render_template_run config_dict template_name (VRef l) context
              app_key encoding status w)
    as (context' & w2 & Hnone & Hsome & Hframe & Htrace & Hcall).
  assert (Hext : extends (heap w) (heap w2)).
  { intros l' o Hl'. rewrite Hframe; [done|eauto]. }
  assert (Hctx' : mapping_items (heap w2) context' = Some m).
  { destruct (decide (context = VNone)) as [->|Hne].
    - injection Hctx as <-. by apply Hnone.
    - rewrite (Hsome Hne). apply (mapping_items_extends (heap w)); [done|].
      by destruct context. }
  rewrite (render_string_effective config_dict template_name l context'
             (Some (default APP_KEY app_key)) store app env t m acc w2
             (Hext _ _ Hl) Henv Htpl Hctx'
             (holds_accumulated_extends _ _ _ _ Hext Hacc)) in Hcall.
  fold effective event in Hcall.
  destruct (if is_async env then render_async t effective
            else render t effective) as [text|e].
  - destruct Hcall as (lr & w' & Heq & Hfresh & Hlr & Hothers & Htr).
    exists lr, w'. split; [done|]. split; [done|]. split; [done|]. split.
    + intros l' o Hl'. rewrite Hothers by (intros ->; congruence).
      cbn [heap add_event]. by apply Hext.
    + rewrite Htr. cbn [trace add_event]. by rewrite Htrace.
  - eexists. split; [exact Hcall|]. cbn [heap trace add_event].
    by rewrite Htrace.
Qed.

(** X6: with the environment and the template found, [render_template]
    calls the engine once on the effective context ([None] counting as
    the empty context) and either returns a new response carrying the
    engine's text, the given status, [text/html] and the charset, or
    raises the engine's exception; no existing object changes. *)
Theorem render_template_renders_effective_context
    (config_dict : nat -> Config) (template_name : string) (l : loc)
    (context : PyVal) (app_key encoding : option string) (status : option Z)
    (store : Ctx) (app : nat) (env : Environment) (t : Template) (m : Ctx)
    (acc : option Ctx) (w : World) :
  heap w !! l = Some (ORequest store app) ->
  get_env (config_dict app) app_key = AEnv env ->
  get_template env template_name = Ok t ->
  context_items (heap w) context = Some m ->
  holds_accumulated (heap w) store acc ->
  let effective := effective_context acc m in
  let event := EvRender (is_async env) (tpl_name t) effective in
  match (if is_async env then render_async t effective
         else render t effective) with
  | Ok text =>
      exists (lr : loc) (w' : World),
        render_template config_dict template_name (VRef l) context app_key
          encoding status w = (Ok (VRef lr), w')
        /\ heap w !! lr = None
        /\ heap w' !! lr
           = Some (OResponse (mkResponse (default 200 status) "text/html"
                                (Some (default "utf-8" encoding)) (Some text)))
        /\ extends (heap w) (heap w')
        /\ trace w' = trace w ++ [event]
  | Raise e =>
      exists w' : World,
        render_template config_dict template_name (VRef l) context app_key
          encoding status w = (Raise e, w')
        /\ extends (heap w) (heap w')
        /\ trace w' = trace w ++ [event]
  end.
Proof. apply render_template_effective. Qed.

(** ** The [template] decorator *)

(** X7: called without positional arguments, a wrapped handler whose
    handler returns a context fails with an [IndexError] once the handler
    has run; nothing is rendered. *)
Theorem template_without_arguments
    (config_dict : nat -> Config) (template_name : string)
    (app_key encoding : option string) (status : option Z)
    (func : Handler) (w w1 : World) (context : PyVal) :
  call func [] (warned func w) = (Ok context, w1) ->
  isinstance_StreamResponse (heap w1) context = false ->
  template config_dict template_name app_key encoding status func [] w
  = (Raise (IndexError "tuple index out of range"), w1).
Proof.
  intros Hcall Hctx. unfold template, warned in *. mstep.
  destruct (is_coroutine_function func); mstep; rewrite Hcall; mstep;
    by rewrite Hctx.
Qed.

(** X8: an exception of the handler leaves the wrapped handler as it
    is, in the world the handler left: nothing is looked up, rendered or
    built. *)
Theorem template_handler_error_propagates
    (config_dict : nat -> Config) (template_name : string)
    (app_key encoding : option string) (status : option Z)
    (func : Handler) (args : list PyVal) (w w1 : World) (e : Exc) :
  call func args (warned func w) = (Raise e, w1) ->
  template config_dict template_name app_key encoding status func args w
  = (Raise e, w1).
Proof.
  intros Hcall. unfold template, warned in *. mstep.
  destruct (is_coroutine_function func); mstep; by rewrite Hcall.
Qed.

Lemma class_name_extends (h h' : Heap) (v : PyVal) :
  extends h h' -> in_heap h v -> class_name h' v = class_name h v.
Proof.
  intros Hext Hin. destruct v as [| | | |l]; try done.
  destruct Hin as [o Ho]. unfold class_name, obj_at.
  by rewrite Ho, (Hext _ _ Ho).
Qed.

Lemma isinstance_Mapping_extends (h h' : Heap) (v : PyVal) :
  extends h h' -> in_heap h v ->
  isinstance_Mapping h' v = isinstance_Mapping h v.
Proof.
  intros Hext Hin. destruct v as [| | | |l]; try done.
  destruct Hin as [o Ho]. unfold isinstance_Mapping, mapping_items, obj_at.
  by rewrite Ho, (Hext _ _ Ho).
Qed.

(** The third fatal error of [render_string]. *)
Lemma render_string_not_mapping (config_dict : nat -> Config)
    (template_name : string) (l : loc) (context : PyVal)
    (app_key : option string) (store : Ctx) (app : nat) (env : Environment)
    (t : Template) (w : World) :
  heap w !! l = Some (ORequest store app) ->
  get_env (config_dict app) app_key = AEnv env ->
  get_template env template_name = Ok t ->
  isinstance_Mapping (heap w) context = false ->
  render_string config_dict template_name (VRef l) context app_key w
  = (Raise (HTTPInternalServerError
              (not_mapping_text (type_repr (heap w) context))
              (not_mapping_text (type_repr (heap w) context)) None), w).
Proof.
  intros Hl Henv Htpl Hctx.
  unfold render_string, getattr_config_dict. mstep.
  rewrite (obj_at_lookup _ _ _ Hl). mstep.
  unfold get_env in Henv. rewrite Henv. mstep.
  rewrite Htpl. mstep. by rewrite Hctx.
Qed.

(** X9: when the handler returns a context, the wrapped handler returns
    a new response with the engine's text for the effective context, the
    decorator's status, [text/html] and the decorator's charset, or
    raises the engine's exception.  A handler that returns [None] has the
    template rendered with the accumulated context alone. *)
Theorem template_renders_context
    (config_dict : nat -> Config) (template_name : string)
    (app_key encoding : option string) (status : option Z)
    (func : Handler) (args : list PyVal) (w w1 : World) (context : PyVal)
    (l : loc) (store : Ctx) (app : nat) (env : Environment) (t : Template)
    (m : Ctx) (acc : option Ctx) :
  call func args (warned func w) = (Ok context, w1) ->
  isinstance_StreamResponse (heap w1) context = false ->
  request_by_view_class (heap w1) args = Some (VRef l) ->
  heap w1 !! l = Some (ORequest store app) ->
  get_env (config_dict app) app_key = AEnv env ->
  get_template env template_name = Ok t ->
  context_items (heap w1) context = Some m ->
  holds_accumulated (heap w1) store acc ->
  let effective := effective_context acc m in
  let event := EvRender (is_async env) (tpl_name t) effective in
  match (if is_async env then render_async t effective
         else render t effective) with
  | Ok text =>
      exists (lr : loc) (w' : World),
        template config_dict template_name app_key encoding status func args w
        = (Ok (VRef lr), w')
        /\ heap w1 !! lr = None
        /\ heap w' !! lr
           = Some (OResponse (mkResponse (default 200 status) "text/html"
                                (Some (default "utf-8" encoding)) (Some text)))
        /\ extends (heap w1) (heap w')
        /\ trace w' = trace w1 ++ [event]
  | Raise e =>
      exists w' : World,
        template config_dict template_name app_key encoding status func args w
        = (Raise e, w')
        /\ extends (heap w1) (heap w')
        /\ trace w' = trace w1 ++ [event]
  end.
Proof.
  intros Hcall Hresp Hreq Hl Henv Htpl Hctx Hacc effective event.
  rewrite (template_render_path _ _ _ _ _ _ _ _ _ _ _ Hcall Hresp Hreq).
  pose proof (render_template_effective config_dict template_name l context
                (Some (default APP_KEY app_key))
                (Some (default "utf-8" encoding)) None store app env t m acc
                w1 Hl Henv Htpl Hctx Hacc) as Hrun.
  pose proof (render_and_set_status_run config_dict template_name (VRef l)
                context (default APP_KEY app_key) (default "utf-8" encoding)
                (default 200 status) w1) as Hset.
  cbn zeta in Hrun. fold effective event in Hrun.
  destruct (if is_async env then render_async t effective
            else render t effective) as [text|e].
  - destruct Hrun as (lr & w2 & Heq & Hfresh & Hlr & Hext & Htr).
    rewrite Heq in Hset.
    destruct Hset as (lr' & r & [= <-] & _ & Hlr' & _ & Hfinal).
    rewrite Hlr in Hlr'. injection Hlr' as <-.
    eexists lr, _. split; [exact Hfinal|]. split; [exact Hfresh|].
    cbn [heap set_heap trace]. split; [apply lookup_insert_eq|].
    split; [|exact Htr].
    intros l' o Hl'. rewrite lookup_insert_ne by (intros ->; congruence).
    by apply Hext.
  - destruct Hrun as (w2 & Heq & Hext & Htr). rewrite Heq in Hset.
    by exists w2.
Qed.

(** X10: when the handler returns something that is neither a response,
    nor [None], nor a mapping, the wrapped handler raises the internal
    server error of [render_string] that names the type; the status of
    the decorator plays no part. *)
Theorem template_rejects_invalid_context
    (config_dict : nat -> Config) (template_name : string)
    (app_key encoding : option string) (status : option Z)
    (func : Handler) (args : list PyVal) (w w1 : World) (context : PyVal)
    (l : loc) (store : Ctx) (app : nat) (env : Environment) (t : Template) :
  call func args (warned func w) = (Ok context, w1) ->
  isinstance_StreamResponse (heap w1) context = false ->
  request_by_view_class (heap w1) args = Some (VRef l) ->
  heap w1 !! l = Some (ORequest store app) ->
  get_env (config_dict app) app_key = AEnv env ->
  get_template env template_name = Ok t ->
  context <> VNone ->
  in_heap (heap w1) context ->
  isinstance_Mapping (heap w1) context = false ->
  let text := not_mapping_text (type_repr (heap w1) context) in
  exists w' : World,
    template config_dict template_name app_key encoding status func args w
    = (Raise (HTTPInternalServerError text text None), w')
    /\ extends (heap w1) (heap w')
    /\ trace w' = trace w1.
Proof.
  intros Hcall Hresp Hreq Hl Henv Htpl Hnone Hin Hctx text.
  rewrite (template_render_path _ _ _ _ _ _ _ _ _ _ _ Hcall Hresp Hreq).
  pose proof (render_and_set_status_run config_dict template_name (VRef l)
                context (default APP_KEY app_key) (default "utf-8" encoding)
                (default 200 status) w1) as Hset.
  destruct (render_template_run config_dict template_name (VRef l) context
              (Some (default APP_KEY app_key))
              (Some (default "utf-8" encoding)) None w1)
    as (context' & w2 & _ & Hsome & Hframe & Htrace & Hrun).
  rewrite (Hsome Hnone) in Hrun.
  assert (Hext : extends (heap w1) (heap w2)).
  { intros l' o Hl'. rewrite Hframe; [done|eauto]. }
  rewrite (render_string_not_mapping config_dict template_name l context
             (Some (default APP_KEY (Some (default APP_KEY app_key))))
             store app env t w2 (Hext _ _ Hl) Henv Htpl) in Hrun.
  - rewrite Hrun in Hset. exists w2. split; [|done].
    rewrite Hset. unfold text, type_repr.
    by rewrite (class_name_extends _ _ _ Hext Hin).
  - by rewrite (isinstance_Mapping_extends _ _ _ Hext Hin).
Qed.

(** ** [context_processors_middleware] *)

(** Where the request and its entry are once the middleware has looked
    at the store. *)
Lemma entry_state_request (w : World) (l : loc) (store : Ctx) (app : nat)
    (d : loc) (acc0 : Ctx) (h1 : Heap) :
  heap w !! l = Some (ORequest store app) ->
  entry_state w l store app d acc0 h1 ->
  d <> l
  /\ h1 !! d = Some (ODict acc0)
  /\ exists store' : Ctx,
       h1 !! l = Some (ORequest store' app)
       /\ store' !! REQUEST_CONTEXT_KEY = Some (VRef d).
Proof.
  intros Hl [Hkey | d' acc Hkey Hd].
  - assert (Hne : fresh (dom (heap w)) <> l).
    { intros Heq. pose proof (fresh_loc_None (heap w)) as Hf.
      rewrite Heq in Hf. congruence. }
    split; [done|]. split.
    + rewrite lookup_insert_ne by done. apply lookup_insert_eq.
    + eexists. split; apply lookup_insert_eq.
  - split; [intros Heq; rewrite Heq in Hd; congruence|]. eauto.
Qed.

(** The first steps of the middleware: the store is looked at, an empty
    dict is stored if there is no entry, and the config is read. *)
Lemma middleware_start (config_dict : nat -> Config) (l : loc) (store : Ctx)
    (app : nat) (handler : PyVal -> M PyVal) (w : World) (d : loc)
    (acc0 : Ctx) (h1 : Heap) :
  heap w !! l = Some (ORequest store app) ->
  entry_state w l store app d acc0 h1 ->
  context_processors_middleware config_dict (VRef l) handler w
  = (processors <-
       lift (match config_dict app !! APP_CONTEXT_PROCESSORS_KEY with
             | None => Raise (KeyError APP_CONTEXT_PROCESSORS_KEY)
             | Some (AProcessors ps) => Ok ps
             | Some _ => Raise (TypeError "object is not iterable")
             end);;
     for_each processors (fun processor =>
       accumulated <- ask (py_getitem (VRef l) REQUEST_CONTEXT_KEY);;
       update <- ask (getattr_update accumulated);;
       result <- call_processor processor (VRef l);;
       call_update update result);;
     handler (VRef l)) (mkWorld h1 (trace w)).
Proof.
  intros Hl Hentry.
  unfold context_processors_middleware.
  set (body := fun processor : Processor => bind _ _).
  mstep.
  unfold py_contains, mapping_items. rewrite (obj_at_lookup _ _ _ Hl).
  destruct Hentry as [Hkey | d acc0 Hkey Hd].
  - set (d := fresh (dom (heap w))) in *.
    assert (Hd : heap w !! d = None) by apply fresh_loc_None.
    assert (Hne : d <> l) by (intros Heq; rewrite Heq in Hd; congruence).
    rewrite Hkey. rewrite bool_decide_eq_false_2 by (by intros [? ?]).
    mstep. unfold alloc. fold d. unfold py_setitem, set_heap. cbn [heap trace].
    unfold obj_at at 1. rewrite lookup_insert_ne, Hl by done.
    cbn [default from_option id].
    unfold getattr_config_dict. cbn [heap].
    unfold obj_at. rewrite lookup_insert_eq. reflexivity.
  - rewrite Hkey. rewrite bool_decide_eq_true_2 by eauto.
    mstep. unfold getattr_config_dict.
    rewrite (obj_at_lookup _ _ _ Hl). by destruct w.
Qed.

(** X11: without a processors entry in the config the middleware raises
    a [KeyError] for that key and never calls the handler; by then a
    request that had no accumulated context has been given an empty
    one. *)
Theorem middleware_without_processors_entry
    (config_dict : nat -> Config) (l : loc) (store : Ctx) (app : nat)
    (handler : PyVal -> M PyVal) (w : World) (d : loc) (acc0 : Ctx)
    (h1 : Heap) :
  heap w !! l = Some (ORequest store app) ->
  config_dict app !! APP_CONTEXT_PROCESSORS_KEY = None ->
  entry_state w l store app d acc0 h1 ->
  context_processors_middleware config_dict (VRef l) handler w
  = (Raise (KeyError APP_CONTEXT_PROCESSORS_KEY), mkWorld h1 (trace w))
  /\ accumulated_context h1 l = Some (d, acc0).
Proof.
  intros Hl Hps Hentry. split.
  - rewrite (middleware_start _ _ _ _ _ _ _ _ _ Hl Hentry). mstep.
    by rewrite Hps.
  - destruct (entry_state_request _ _ _ _ _ _ _ Hl Hentry)
      as (_ & Hd & store' & Hl1 & Hkey).
    unfold accumulated_context.
    by rewrite (obj_at_lookup _ _ _ Hl1), Hkey, (obj_at_lookup _ _ _ Hd).
Qed.

Lemma for_each_app {A} (xs ys : list A) (body : A -> M unit) (w : World) :
  for_each (xs ++ ys) body w = (for_each xs body;; for_each ys body) w.
Proof.
  revert w. induction xs as [|x xs IH]; intros w; [reflexivity|].
  cbn [for_each app]. mstep. destruct (body x w) as [[[]|e] w']; [|done].
  rewrite IH. reflexivity.
Qed.

(** The heap under [returns_in_order] matters only outside the dict. *)
Lemma returns_in_order_insert (request : PyVal) (h : Heap) (d : loc) (o : Obj)
    (ps : list Processor) :
  forall (ms : list Ctx) (acc : Ctx),
    returns_in_order request (<[d := o]> h) d acc ps ms
    <-> returns_in_order request h d acc ps ms.
Proof.
  induction ps as [|p ps IH]; intros [|m ms] acc; cbn; try done.
  by rewrite insert_insert_eq, IH.
Qed.

Lemma returns_in_order_app (request : PyVal) (h : Heap) (d : loc)
    (ps1 ps2 : list Processor) :
  forall (ms1 ms2 : list Ctx) (acc : Ctx),
    length ms1 = length ps1 ->
    returns_in_order request h d acc (ps1 ++ ps2) (ms1 ++ ms2)
    <-> returns_in_order request h d acc ps1 ms1
        /\ returns_in_order request h d (merge_all acc ms1) ps2 ms2.
Proof.
  induction ps1 as [|p ps1 IH]; intros [|m ms1] ms2 acc Hlen;
    try discriminate; cbn [app returns_in_order merge_all fold_left].
  - tauto.
  - injection Hlen as Hlen. rewrite (IH ms1 ms2 (merge acc m) Hlen).
    unfold merge_all. tauto.
Qed.

(** X12: when a processor raises, the middleware raises the same
    exception and never calls the handler or the later processors; what
    the earlier processors returned has been merged and stays merged. *)
Theorem middleware_processor_error_propagates
    (config_dict : nat -> Config) (l : loc) (store : Ctx) (app : nat)
    (ps1 ps2 : list Processor) (p : Processor) (handler : PyVal -> M PyVal)
    (w : World) (d : loc) (acc0 : Ctx) (h1 : Heap) (ms1 : list Ctx) (e : Exc) :
  heap w !! l = Some (ORequest store app) ->
  config_dict app !! APP_CONTEXT_PROCESSORS_KEY
    = Some (AProcessors (ps1 ++ p :: ps2)) ->
  entry_state w l store app d acc0 h1 ->
  returns_in_order (VRef l) h1 d acc0 ps1 ms1 ->
  proc_call p (VRef l) (<[d := ODict (merge_all acc0 ms1)]> h1) = Raise e ->
  context_processors_middleware config_dict (VRef l) handler w
  = (Raise e,
     mkWorld (<[d := ODict (merge_all acc0 ms1)]> h1)
       (trace w ++ processor_events ps1 ms1)).
Proof.
  intros Hl Hps Hentry Hret Hfail.
  destruct (entry_state_request _ _ _ _ _ _ _ Hl Hentry)
    as (Hne & Hd & store' & Hl1 & Hkey).
  rewrite (middleware_start _ _ _ _ _ _ _ _ _ Hl Hentry).
  set (body := fun processor : Processor => bind _ _).
  mstep. rewrite Hps. rewrite for_each_app. mstep.
  rewrite <- (insert_id h1 d (ODict acc0) Hd) at 1. unfold body.
  rewrite (for_each_processor l d store' app h1 ps1 Hl1 Hkey Hne ms1 acc0
             (trace w) Hret).
  cbn [for_each]. mstep.
  unfold py_getitem, mapping_items, obj_at. cbn [heap].
  rewrite lookup_insert_ne, Hl1 by done. cbn [default from_option id].
  rewrite Hkey. unfold getattr_update, obj_at. rewrite lookup_insert_eq.
  cbn [default from_option id]. unfold call_processor. cbn [heap].
  by rewrite Hfail.
Qed.

(** X13: an entry of the store that has no [update] method, such as
    [None], makes the middleware raise an [AttributeError] as soon as
    there is a processor to run, before that processor is called. *)
Theorem middleware_rejects_foreign_entry
    (config_dict : nat -> Config) (l : loc) (store : Ctx) (app : nat)
    (p : Processor) (ps : list Processor) (handler : PyVal -> M PyVal)
    (w : World) (v : PyVal) (e : Exc) :
  heap w !! l = Some (ORequest store app) ->
  config_dict app !! APP_CONTEXT_PROCESSORS_KEY = Some (AProcessors (p :: ps)) ->
  store !! REQUEST_CONTEXT_KEY = Some v ->
  getattr_update v (heap w) = Raise e ->
  context_processors_middleware config_dict (VRef l) handler w = (Raise e, w)
  /\ e = AttributeError "update".
Proof.
  intros Hl Hps Hkey Hupdate. split.
  - unfold context_processors_middleware. mstep.
    unfold py_contains, mapping_items. rewrite (obj_at_lookup _ _ _ Hl).
    rewrite Hkey. rewrite bool_decide_eq_true_2 by eauto. mstep.
    unfold getattr_config_dict. rewrite (obj_at_lookup _ _ _ Hl), Hps.
    cbn [for_each]. mstep.
    unfold py_getitem, mapping_items. rewrite (obj_at_lookup _ _ _ Hl), Hkey.
    by rewrite Hupdate.
  - unfold getattr_update in Hupdate.
    destruct v as [| | | |d]; try congruence.
    destruct (obj_at (heap w) d); congruence.
Qed.

(** The state of the request when the handler is called. *)
Lemma middleware_result_state (w : World) (l : loc) (store : Ctx) (app : nat)
    (d : loc) (acc0 acc : Ctx) (h1 : Heap) :
  heap w !! l = Some (ORequest store app) ->
  entry_state w l store app d acc0 h1 ->
  d <> l
  /\ exists store' : Ctx,
       <[d := ODict acc]> h1 !! l = Some (ORequest store' app)
       /\ store' !! REQUEST_CONTEXT_KEY = Some (VRef d)
       /\ holds_accumulated (<[d := ODict acc]> h1) store' (Some acc).
Proof.
  intros Hl Hentry.
  destruct (entry_state_request _ _ _ _ _ _ _ Hl Hentry)
    as (Hne & _ & store' & Hl1 & Hkey).
  split; [done|]. exists store'. split; [by rewrite lookup_insert_ne|].
  split; [done|]. exists (VRef d). split; [done|].
  unfold mapping_items, obj_at. by rewrite lookup_insert_eq.
Qed.

(** X14: the pipeline as a whole.  When the next handler renders a
    template for the request, the engine is given the handler's context
    over the fold of what the processors returned over what the store
    held: the handler wins over the processors, a later processor over an
    earlier one, and any processor over what was there before. *)
Theorem middleware_then_render_template
    (config_dict : nat -> Config) (template_name : string) (l : loc)
    (context : PyVal) (app_key encoding : option string) (status : option Z)
    (store : Ctx) (app : nat) (ps : list Processor) (env : Environment)
    (t : Template) (m : Ctx) (w : World) (d : loc) (acc0 : Ctx) (h1 : Heap)
    (ms : list Ctx) :
  heap w !! l = Some (ORequest store app) ->
  config_dict app !! APP_CONTEXT_PROCESSORS_KEY = Some (AProcessors ps) ->
  entry_state w l store app d acc0 h1 ->
  returns_in_order (VRef l) h1 d acc0 ps ms ->
  get_env (config_dict app) app_key = AEnv env ->
  get_template env template_name = Ok t ->
  context_items (<[d := ODict (fold_left merge ms acc0)]> h1) context = Some m ->
  let effective := m ∪ fold_left merge ms acc0 in
  let events := zip_with EvProcessor (proc_name <$> ps) ms
                ++ [EvRender (is_async env) (tpl_name t) effective] in
  let pipeline :=
    context_processors_middleware config_dict (VRef l)
      (fun request => render_template config_dict template_name request
                        context app_key encoding status) w in
  match (if is_async env then render_async t effective
         else render t effective) with
  | Ok text =>
      exists (lr : loc) (w' : World),
        pipeline = (Ok (VRef lr), w')
        /\ heap w' !! lr
           = Some (OResponse (mkResponse (default 200 status) "text/html"
                                (Some (default "utf-8" encoding)) (Some text)))
        /\ accumulated_context (heap w') l = Some (d, fold_left merge ms acc0)
        /\ trace w' = trace w ++ events
  | Raise e =>
      exists w' : World,
        pipeline = (Raise e, w')
        /\ accumulated_context (heap w') l = Some (d, fold_left merge ms acc0)
        /\ trace w' = trace w ++ events
  end.
Proof.
  intros Hl Hps Hentry Hret Henv Htpl Hctx effective events pipeline.
  subst pipeline.
  rewrite (middleware_run _ _ _ _ _ _ _ _ _ _ _ Hl Hps Hentry Hret).
  fold (merge_all acc0 ms) in *.
  destruct (middleware_result_state w l store app d acc0 (merge_all acc0 ms)
              h1 Hl Hentry) as (Hne & store' & Hl' & Hkey & Hacc).
  set (w1 := mkWorld (<[d := ODict (merge_all acc0 ms)]> h1)
               (trace w ++ processor_events ps ms)).
  pose proof (render_template_effective config_dict template_name l context
                app_key encoding status store' app env t m
                (Some (merge_all acc0 ms)) w1 Hl' Henv Htpl Hctx Hacc) as Hrun.
  cbn zeta in Hrun. unfold effective_context in Hrun. fold effective in Hrun.
  assert (Hkeep : forall w' : World,
            extends (heap w1) (heap w') ->
            accumulated_context (heap w') l = Some (d, merge_all acc0 ms)).
  { intros w' Hext. unfold accumulated_context.
    rewrite (obj_at_lookup _ _ _ (Hext _ _ Hl')), Hkey.
    by rewrite (obj_at_lookup _ _ _ (Hext d _ (lookup_insert_eq _ _ _))). }
  destruct (if is_async env then render_async t effective
            else render t effective) as [text|e].
  - destruct Hrun as (lr & w' & Heq & _ & Hlr & Hext & Htr).
    exists lr, w'. split; [exact Heq|]. split; [exact Hlr|].
    split; [by apply Hkeep|].
    rewrite Htr. unfold events, w1, processor_events. cbn [trace].
    by rewrite <- app_assoc.
  - destruct Hrun as (w' & Heq & Hext & Htr).
    exists w'. split; [exact Heq|]. split; [by apply Hkeep|].
    rewrite Htr. unfold events, w1, processor_events. cbn [trace].
    by rewrite <- app_assoc.
Qed.

(** X15: with [request_processor] among the processors, the accumulated
    context binds [request] to the request itself, unless a processor
    registered after it returns that key too. *)
Theorem middleware_request_processor
    (config_dict : nat -> Config) (l : loc) (store : Ctx) (app : nat)
    (ps1 ps2 : list Processor) (handler : PyVal -> M PyVal) (w : World)
    (d : loc) (acc0 : Ctx) (h1 : Heap) (ms1 ms2 : list Ctx) (m : Ctx) :
  heap w !! l = Some (ORequest store app) ->
  config_dict app !! APP_CONTEXT_PROCESSORS_KEY
    = Some (AProcessors (ps1 ++ request_processor :: ps2)) ->
  entry_state w l store app d acc0 h1 ->
  length ms1 = length ps1 ->
  returns_in_order (VRef l) h1 d acc0 (ps1 ++ request_processor :: ps2)
    (ms1 ++ m :: ms2) ->
  (forall m', m' ∈ ms2 -> m' !! "request" = None) ->
  exists (w' : World) (acc : Ctx),
    context_processors_middleware config_dict (VRef l) handler w
    = handler (VRef l) w'
    /\ accumulated_context (heap w') l = Some (d, acc)
    /\ acc !! "request" = Some (VRef l).
Proof.
  intros Hl Hps Hentry Hlen Hret Hlater.
  eexists _, _. split.
  { exact (middleware_run _ _ _ _ _ _ _ _ _ _ _ Hl Hps Hentry Hret). }
  destruct (middleware_result_state w l store app d acc0
              (merge_all acc0 (ms1 ++ m :: ms2)) h1 Hl Hentry)
    as (Hne & store' & Hl' & Hkey & _).
  split.
  - unfold accumulated_context. cbn [heap].
    rewrite (obj_at_lookup _ _ _ Hl'), Hkey.
    by rewrite (obj_at_lookup _ _ _ (lookup_insert_eq _ _ _)).
  - apply (returns_in_order_app _ _ _ ps1 (request_processor :: ps2) ms1
             (m :: ms2) acc0 Hlen) in Hret as [_ [Hm _]].
    cbn in Hm. injection Hm as <-.
    apply merge_all_lookup_last; [apply lookup_singleton_eq|done].
Qed.

(** X16: the middleware run twice around a handler, as happens when two
    nested applications both register it, keeps one dict and merges the
    two rounds one after the other: the second round wins over the
    first. *)
Theorem middleware_nested_twice
    (config_dict : nat -> Config) (l : loc) (store : Ctx) (app : nat)
    (ps : list Processor) (handler : PyVal -> M PyVal) (w : World)
    (d : loc) (acc0 : Ctx) (h1 : Heap) (ms ms' : list Ctx) :
  heap w !! l = Some (ORequest store app) ->
  config_dict app !! APP_CONTEXT_PROCESSORS_KEY = Some (AProcessors ps) ->
  entry_state w l store app d acc0 h1 ->
  returns_in_order (VRef l) h1 d acc0 ps ms ->
  returns_in_order (VRef l) h1 d (fold_left merge ms acc0) ps ms' ->
  context_processors_middleware config_dict (VRef l)
    (fun request => context_processors_middleware config_dict request handler)
    w
  = handler (VRef l)
      (mkWorld (<[d := ODict (fold_left merge (ms ++ ms') acc0)]> h1)
         (trace w ++ zip_with EvProcessor (proc_name <$> ps) ms
                  ++ zip_with EvProcessor (proc_name <$> ps) ms')).
Proof.
  intros Hl Hps Hentry Hret Hret'.
  rewrite (middleware_run _ _ _ _ _ _ _ _ _ _ _ Hl Hps Hentry Hret).
  fold (merge_all acc0 ms) in *.
  destruct (middleware_result_state w l store app d acc0 (merge_all acc0 ms)
              h1 Hl Hentry) as (Hne & store' & Hl' & Hkey & _).
  set (w1 := mkWorld (<[d := ODict (merge_all acc0 ms)]> h1)
               (trace w ++ processor_events ps ms)).
  rewrite (middleware_run config_dict l store' app ps handler w1 d
             (merge_all acc0 ms) (heap w1) ms' Hl' Hps
             (entry_present w1 l store' app d (merge_all acc0 ms) Hkey
                (lookup_insert_eq _ _ _))).
  - unfold w1. cbn [heap trace]. rewrite insert_insert_eq.
    unfold merge_all, processor_events. by rewrite fold_left_app, <- app_assoc.
  - unfold w1. cbn [heap]. by apply returns_in_order_insert.
Qed.

(** ** [setup] and [get_env] *)

Section SetupFacts.

Variable jinja2_Environment :
  list EngineVal -> bool -> gmap string EngineVal -> Outcome EnvObject.
Variable GLOBAL_HELPERS : gmap string EngineVal.

Abbreviation setup' := (setup jinja2_Environment GLOBAL_HELPERS).

(** What a successful [setup] leaves in the store and in the list of
    middlewares. *)
Lemma setup_ok_inv (app app' : Application) (args : list EngineVal)
    (app_key : option string) (ps : list Processor)
    (filters : option (gmap string EngineVal))
    (default_helpers enable_async : option bool)
    (kwargs : gmap string EngineVal) (env : EnvObject) :
  setup' app args app_key ps filters default_helpers enable_async kwargs
  = (Ok env, app') ->
  let state := <[default APP_KEY app_key := AEnv (env_handle env)]> (app_state app) in
  app' = match ps with
         | [] => mkApplication state (app_middlewares app)
         | _ :: _ =>
             mkApplication (<[APP_CONTEXT_PROCESSORS_KEY := AProcessors ps]> state)
               (app_middlewares app ++ [ContextProcessorsMiddleware])
         end.
Proof.
  unfold setup. destruct (jinja2_Environment _ _ _) as [env0|e]; [|discriminate].
  intros [= <- <-]. reflexivity.
Qed.

Lemma setup_ok_store (app app' : Application) (args : list EngineVal)
    (app_key : option string) (ps : list Processor)
    (filters : option (gmap string EngineVal))
    (default_helpers enable_async : option bool)
    (kwargs : gmap string EngineVal) (env : EnvObject) (k : string) :
  setup' app args app_key ps filters default_helpers enable_async kwargs
  = (Ok env, app') ->
  app_state app' !! k
  = match ps with
    | _ :: _ =>
        if decide (k = APP_CONTEXT_PROCESSORS_KEY) then Some (AProcessors ps)
        else if decide (k = default APP_KEY app_key)
             then Some (AEnv (env_handle env))
             else app_state app !! k
    | [] =>
        if decide (k = default APP_KEY app_key)
        then Some (AEnv (env_handle env))
        else app_state app !! k
    end.
Proof.
  intros Hsetup. rewrite (setup_ok_inv _ _ _ _ _ _ _ _ _ _ Hsetup).
  destruct ps as [|p ps]; cbn [app_state].
  - case_decide as Hk; [rewrite Hk; apply lookup_insert_eq|].
    by rewrite lookup_insert_ne.
  - case_decide as Hp; [rewrite Hp; apply lookup_insert_eq|].
    rewrite lookup_insert_ne by done.
    case_decide as Hk; [rewrite Hk; apply lookup_insert_eq|].
    by rewrite lookup_insert_ne.
Qed.

(** X17: after a successful [setup], [get_env] with the same key gives
    the environment [setup] returned, whatever the application held
    before; but when processors are given and the key is the key of the
    processors, the processors are stored over the environment. *)
Theorem setup_then_get_env (app app' : Application) (args : list EngineVal)
    (app_key : option string) (ps : list Processor)
    (filters : option (gmap string EngineVal))
    (default_helpers enable_async : option bool)
    (kwargs : gmap string EngineVal) (env : EnvObject) :
  setup' app args app_key ps filters default_helpers enable_async kwargs
  = (Ok env, app') ->
  (ps = [] \/ default APP_KEY app_key <> APP_CONTEXT_PROCESSORS_KEY ->
   get_env (app_state app') app_key = AEnv (env_handle env))
  /\ (ps <> [] -> default APP_KEY app_key = APP_CONTEXT_PROCESSORS_KEY ->
      get_env (app_state app') app_key = AProcessors ps).
Proof.
  intros Hsetup. unfold get_env.
  rewrite (setup_ok_store _ _ _ _ _ _ _ _ _ _ _ Hsetup). split.
  - intros [-> | Hne].
    + by rewrite decide_True.
    + destruct ps; [by rewrite decide_True|].
      by rewrite decide_False, decide_True.
  - intros Hps Heq. destruct ps; [done|]. by rewrite decide_True.
Qed.


(** X19: [setup] passes the keyword options on with [autoescape] set to
    [True] unless the caller set it: making that default explicit changes
    nothing. *)
Theorem setup_autoescape_default (app : Application) (args : list EngineVal)
    (app_key : option string) (ps : list Processor)
    (filters : option (gmap string EngineVal))
    (default_helpers enable_async : option bool)
    (kwargs : gmap string EngineVal) :
  setup' app args app_key ps filters default_helpers enable_async kwargs
  = setup' app args app_key ps filters default_helpers enable_async
      (<["autoescape" := default (EBool true) (kwargs !! "autoescape")]> kwargs).
Proof.
  unfold setup. destruct (kwargs !! "autoescape") as [v|] eqn:Hv;
    cbn [default from_option id].
  - by rewrite (insert_id _ _ _ Hv), Hv.
  - by rewrite lookup_insert_eq.
Qed.

(** X20: in the environment [setup] returns, [app] is always the
    application; with the default helpers on, every helper is a global
    under its name, over what the engine had; the filters given are
    filters under their names, over what the engine had; and what the
    engine had under other names is kept. *)
Theorem setup_globals_and_filters (app app' : Application)
    (args : list EngineVal) (app_key : option string) (ps : list Processor)
    (filters : option (gmap string EngineVal))
    (default_helpers enable_async : option bool)
    (kwargs : gmap string EngineVal) (env : EnvObject) :
  setup' app args app_key ps filters default_helpers enable_async kwargs
  = (Ok env, app') ->
  exists (kwargs' : gmap string EngineVal) (env0 : EnvObject),
    jinja2_Environment args (default true enable_async) kwargs' = Ok env0
    /\ env_handle env = env_handle env0
    /\ env_globals env !! "app" = Some EApplication
    /\ (forall k v, k <> "app" -> default true default_helpers = true ->
          GLOBAL_HELPERS !! k = Some v -> env_globals env !! k = Some v)
    /\ (forall k, k <> "app" ->
          default true default_helpers = false \/ GLOBAL_HELPERS !! k = None ->
          env_globals env !! k = env_globals env0 !! k)
    /\ (forall f k v, filters = Some f -> f !! k = Some v ->
          env_filters env !! k = Some v)
    /\ (forall k, filters = None \/ (exists f, filters = Some f /\ f !! k = None) ->
          env_filters env !! k = env_filters env0 !! k).
Proof.
  unfold setup. destruct (jinja2_Environment _ _ _) as [env0|e] eqn:Hnew;
    [|discriminate].
  intros [= <- <-]. eexists _, env0. split; [exact Hnew|].
  cbn [env_handle env_globals env_filters].
  split; [reflexivity|]. split; [apply lookup_insert_eq|]. split; [|split; [|split]].
  - intros k v Hk -> Hv. rewrite lookup_insert_ne by done.
    by apply lookup_union_Some_l.
  - intros k Hk Hnone. rewrite lookup_insert_ne by done.
    destruct Hnone as [-> | Hnone]; [done|].
    destruct (default true default_helpers); [|done].
    by apply lookup_union_r.
  - intros f k v -> Hv. by apply lookup_union_Some_l.
  - intros k [-> | (f & -> & Hnone)]; [done|]. by apply lookup_union_r.
Qed.

(** X21: a successful [setup] touches two entries of the store at most,
    the one under its key and the one of the processors, and adds to the
    list of middlewares at its end only: the middleware of this module,
    once, exactly when processors are given. *)
Theorem setup_keeps_the_rest (app app' : Application) (args : list EngineVal)
    (app_key : option string) (ps : list Processor)
    (filters : option (gmap string EngineVal))
    (default_helpers enable_async : option bool)
    (kwargs : gmap string EngineVal) (env : EnvObject) :
  setup' app args app_key ps filters default_helpers enable_async kwargs
  = (Ok env, app') ->
  (forall k, k <> default APP_KEY app_key -> k <> APP_CONTEXT_PROCESSORS_KEY ->
     app_state app' !! k = app_state app !! k)
  /\ app_middlewares app'
     = app_middlewares app
       ++ match ps with [] => [] | _ :: _ => [ContextProcessorsMiddleware] end
  /\ (ps <> [] ->
      app_state app' !! APP_CONTEXT_PROCESSORS_KEY = Some (AProcessors ps))
  /\ (ps = [] -> default APP_KEY app_key <> APP_CONTEXT_PROCESSORS_KEY ->
      app_state app' !! APP_CONTEXT_PROCESSORS_KEY
      = app_state app !! APP_CONTEXT_PROCESSORS_KEY).
Proof.
  intros Hsetup. split; [|split; [|split]].
  - intros k Hk Hps. rewrite (setup_ok_store _ _ _ _ _ _ _ _ _ _ _ Hsetup).
    destruct ps; by rewrite !decide_False by done.
  - rewrite (setup_ok_inv _ _ _ _ _ _ _ _ _ _ Hsetup).
    destruct ps; cbn [app_middlewares]; [by rewrite app_nil_r|done].
  - intros Hps. rewrite (setup_ok_store _ _ _ _ _ _ _ _ _ _ _ Hsetup).
    destruct ps; [done|]. by rewrite decide_True.
  - intros -> Hne. rewrite (setup_ok_store _ _ _ _ _ _ _ _ _ _ _ Hsetup).
    by rewrite decide_False.
Qed.

(** X22: [setup] keeps every registration of the middleware backed by a
    processors entry, as long as its key is not the key of the
    processors; so the middleware it registers never fails for want of
    that entry. *)
Theorem setup_keeps_middleware_backed (app app' : Application)
    (args : list EngineVal) (app_key : option string) (ps : list Processor)
    (filters : option (gmap string EngineVal))
    (default_helpers enable_async : option bool)
    (kwargs : gmap string EngineVal) (result : Outcome EnvObject) :
  middleware_backed app ->
  default APP_KEY app_key <> APP_CONTEXT_PROCESSORS_KEY ->
  setup' app args app_key ps filters default_helpers enable_async kwargs
  = (result, app') ->
  middleware_backed app'.
Proof.
  intros Hbacked Hkey Hsetup. destruct result as [env|e].
  - unfold middleware_backed.
    rewrite (setup_ok_store _ _ _ _ _ _ _ _ _ _ _ Hsetup).
    rewrite (setup_ok_inv _ _ _ _ _ _ _ _ _ _ Hsetup).
    destruct ps as [|p ps]; cbn [app_middlewares].
    + rewrite decide_False by done. exact Hbacked.
    + rewrite decide_True by done. eauto.
  - unfold setup in Hsetup.
    destruct (jinja2_Environment _ _ _); [discriminate|].
    by injection Hsetup as _ <-.
Qed.

(** X23: the processors given to [setup] are the ones the middleware
    it registers runs for a request of the application, in the order
    given. *)
Theorem setup_then_middleware (config_dict : nat -> Config)
    (app app' : Application) (args : list EngineVal)
    (app_key : option string) (ps : list Processor)
    (filters : option (gmap string EngineVal))
    (default_helpers enable_async : option bool)
    (kwargs : gmap string EngineVal) (env : EnvObject)
    (l : loc) (store : Ctx) (a : nat) (handler : PyVal -> M PyVal)
    (w : World) (d : loc) (acc0 : Ctx) (h1 : Heap) (ms : list Ctx) :
  setup' app args app_key ps filters default_helpers enable_async kwargs
  = (Ok env, app') ->
  ps <> [] ->
  config_dict a = app_state app' ->
  heap w !! l = Some (ORequest store a) ->
  entry_state w l store a d acc0 h1 ->
  returns_in_order (VRef l) h1 d acc0 ps ms ->
  last (app_middlewares app') = Some ContextProcessorsMiddleware
  /\ context_processors_middleware config_dict (VRef l) handler w
     = handler (VRef l)
         (mkWorld (<[d := ODict (fold_left merge ms acc0)]> h1)
            (trace w ++ zip_with EvProcessor (proc_name <$> ps) ms)).
Proof.
  intros Hsetup Hps Hcfg Hl Hentry Hret. split.
  - rewrite (setup_ok_inv _ _ _ _ _ _ _ _ _ _ Hsetup).
    destruct ps; [done|]. cbn [app_middlewares]. apply last_snoc.
  - apply (middleware_run config_dict l store a ps handler w d acc0 h1 ms);
      try done.
    rewrite Hcfg, (setup_ok_store _ _ _ _ _ _ _ _ _ _ _ Hsetup).
    destruct ps; [done|]. by rewrite decide_True.
Qed.

(** X24: after [setup], [render_string] with the same key on a request
    of the application finds the environment and renders with it; the
    error for a missing environment cannot occur. *)
Theorem setup_then_render_string (config_dict : nat -> Config)
    (app app' : Application) (args : list EngineVal)
    (app_key : option string) (ps : list Processor)
    (filters : option (gmap string EngineVal))
    (default_helpers enable_async : option bool)
    (kwargs : gmap string EngineVal) (env : EnvObject)
    (template_name : string) (l : loc) (context : PyVal) (store : Ctx)
    (a : nat) (t : Template) (m : Ctx) (acc : option Ctx) (w : World) :
  setup' app args app_key ps filters default_helpers enable_async kwargs
  = (Ok env, app') ->
  ps = [] \/ default APP_KEY app_key <> APP_CONTEXT_PROCESSORS_KEY ->
  config_dict a = app_state app' ->
  heap w !! l = Some (ORequest store a) ->
  get_template (env_handle env) template_name = Ok t ->
  mapping_items (heap w) context = Some m ->
  holds_accumulated (heap w) store acc ->
  let effective := effective_context acc m in
  render_string config_dict template_name (VRef l) context app_key w
  = ((if is_async (env_handle env) then render_async t effective
      else render t effective),
     add_event (EvRender (is_async (env_handle env)) (tpl_name t) effective) w).
Proof.
  intros Hsetup Hkey Hcfg Hl Htpl Hctx Hacc effective.
  apply (render_string_effective config_dict template_name l context app_key
           store a (env_handle env) t m acc w); try done.
  rewrite Hcfg. unfold get_env.
  rewrite (setup_ok_store _ _ _ _ _ _ _ _ _ _ _ Hsetup).
  destruct Hkey as [-> | Hne].
  - by rewrite decide_True.
  - destruct ps; [by rewrite decide_True|].
    by rewrite decide_False, decide_True.
Qed.

(** X25: two calls of [setup] with different keys leave both
    environments in the application, each under its key. *)
Theorem setup_twice_with_two_keys (app app1 app2 : Application)
    (args1 args2 : list EngineVal) (key1 key2 : option string)
    (ps1 ps2 : list Processor)
    (filters1 filters2 : option (gmap string EngineVal))
    (helpers1 helpers2 async1 async2 : option bool)
    (kwargs1 kwargs2 : gmap string EngineVal) (env1 env2 : EnvObject) :
  setup' app args1 key1 ps1 filters1 helpers1 async1 kwargs1 = (Ok env1, app1) ->
  setup' app1 args2 key2 ps2 filters2 helpers2 async2 kwargs2 = (Ok env2, app2) ->
  default APP_KEY key1 <> default APP_KEY key2 ->
  default APP_KEY key1 <> APP_CONTEXT_PROCESSORS_KEY ->
  default APP_KEY key2 <> APP_CONTEXT_PROCESSORS_KEY ->
  get_env (app_state app2) key1 = AEnv (env_handle env1)
  /\ get_env (app_state app2) key2 = AEnv (env_handle env2).
Proof.
  intros Hfirst Hsecond Hne Hk1 Hk2. unfold get_env. split.
  - rewrite (setup_ok_store _ _ _ _ _ _ _ _ _ _ _ Hsecond).
    assert (Hold : app_state app1 !! default APP_KEY key1
                   = Some (AEnv (env_handle env1))).
    { rewrite (setup_ok_store _ _ _ _ _ _ _ _ _ _ _ Hfirst).
      destruct ps1; [by rewrite decide_True|].
      by rewrite decide_False, decide_True. }
    destruct ps2; rewrite ?(decide_False (P := _ = APP_CONTEXT_PROCESSORS_KEY)) by done;
      by rewrite decide_False, Hold.
  - rewrite (setup_ok_store _ _ _ _ _ _ _ _ _ _ _ Hsecond).
    destruct ps2; [by rewrite decide_True|].
    by rewrite decide_False, decide_True.
Qed.

End SetupFacts.

(** ** The further properties at work on the example application *)

Lemma render_string_lookup_error_propagates_witness :
  render_string ex_config2 "t.html" (VRef 13) (VRef 2) None ex_world2
  = (Raise (RuntimeError "unexpected end of template"), ex_world2).
Proof.
  apply (render_string_lookup_error_propagates ex_config2 "t.html" 13 (VRef 2)
           None ∅ 2%nat ex_broken_env); try reflexivity.
  intros n. discriminate.
Defined.

Lemma render_string_ignores_falsy_entry_witness :
  render_string ex_config2 "t.html" (VRef 11) (VRef 2) None ex_world2
  = (Ok "1", add_event (EvRender true "t.html" {[ "x" := VInt 1 ]}) ex_world2).
Proof.
  etrans.
  - apply (render_string_ignores_falsy_entry ex_config2 "t.html" 11 (VRef 2)
             None {[ REQUEST_CONTEXT_KEY := VNone ]} 0%nat ex_env ex_template
             {[ "x" := VInt 1 ]} VNone ex_world2); reflexivity.
  - vm_compute. reflexivity.
Defined.

Lemma render_string_rejects_foreign_entry_witness :
  exists msg : string,
    render_string ex_config2 "t.html" (VRef 12) (VRef 2) None ex_world2
    = (Raise (TypeError msg), ex_world2)
    \/ render_string ex_config2 "t.html" (VRef 12) (VRef 2) None ex_world2
       = (Raise (ValueError msg), ex_world2).
Proof.
  apply (render_string_rejects_foreign_entry ex_config2 "t.html" 12 (VRef 2)
           None {[ REQUEST_CONTEXT_KEY := VInt 5 ]} 0%nat ex_env ex_template
           {[ "x" := VInt 1 ]} (VInt 5) ex_world2); reflexivity.
Defined.

(** [None] as context for the request 8: the accumulated [x = 1] is
    what the template prints. *)
Lemma render_template_renders_effective_context_witness :
  exists (lr : loc) (w' : World),
    render_template ex_config "t.html" (VRef 8) VNone None None (Some 202)
      ex_world = (Ok (VRef lr), w')
    /\ heap w' !! lr
       = Some (OResponse (mkResponse 202 "text/html" (Some "utf-8") (Some "1"))).
Proof.
  pose proof (render_template_renders_effective_context ex_config "t.html" 8
                VNone None None (Some 202) {[ REQUEST_CONTEXT_KEY := VRef 7 ]}
                0%nat ex_env ex_template ∅
                (Some {[ "x" := VInt 1; "a" := VInt 0 ]}) ex_world
                eq_refl eq_refl eq_refl eq_refl
                (ex_intro _ (VRef 7) (conj eq_refl eq_refl))) as H.
  cbv zeta in H.
  lazymatch type of H with
  | match ?s with Ok _ => _ | Raise _ => _ end =>
      destruct s as [text|e] eqn:E
  end.
  - vm_compute in E. injection E as <-.
    destruct H as (lr & w' & Heq & _ & Hlr & _).
    exists lr, w'. split; [exact Heq|exact Hlr].
  - vm_compute in E. discriminate.
Defined.

Lemma template_without_arguments_witness :
  template ex_config "t.html" None None None ex_context_handler [] ex_world
  = (Raise (IndexError "tuple index out of range"), ex_world).
Proof.
  apply (template_without_arguments ex_config "t.html" None None None
           ex_context_handler ex_world ex_world (VRef 2)); reflexivity.
Defined.

Lemma template_handler_error_propagates_witness :
  template ex_config "t.html" None None None ex_failing_handler [VRef 1]
    ex_world
  = (Raise (RuntimeError "handler failed"), ex_world).
Proof.
  apply (template_handler_error_propagates ex_config "t.html" None None None
           ex_failing_handler [VRef 1] ex_world ex_world); reflexivity.
Defined.

(** A handler that returns [None], for the request 8. *)
Lemma template_renders_context_witness :
  exists (lr : loc) (w' : World),
    template ex_config "t.html" None None (Some 201) ex_none_handler [VRef 8]
      ex_world = (Ok (VRef lr), w')
    /\ heap w' !! lr
       = Some (OResponse (mkResponse 201 "text/html" (Some "utf-8") (Some "1"))).
Proof.
  pose proof (template_renders_context ex_config "t.html" None None (Some 201)
                ex_none_handler [VRef 8] ex_world ex_world VNone 8
                {[ REQUEST_CONTEXT_KEY := VRef 7 ]} 0%nat ex_env ex_template ∅
                (Some {[ "x" := VInt 1; "a" := VInt 0 ]})
                eq_refl eq_refl eq_refl eq_refl eq_refl eq_refl eq_refl
                (ex_intro _ (VRef 7) (conj eq_refl eq_refl))) as H.
  cbv zeta in H.
  lazymatch type of H with
  | match ?s with Ok _ => _ | Raise _ => _ end =>
      destruct s as [text|e] eqn:E
  end.
  - vm_compute in E. injection E as <-.
    destruct H as (lr & w' & Heq & _ & Hlr & _).
    exists lr, w'. split; [exact Heq|exact Hlr].
  - vm_compute in E. discriminate.
Defined.

Lemma template_rejects_invalid_context_witness :
  exists w' : World,
    template ex_config "t.html" None None (Some 201) ex_list_handler [VRef 1]
      ex_world
    = (Raise (HTTPInternalServerError
                "context should be mapping, not <class 'list'>"
                "context should be mapping, not <class 'list'>" None), w')
    /\ trace w' = [].
Proof.
  destruct (template_rejects_invalid_context ex_config "t.html" None None
              (Some 201) ex_list_handler [VRef 1] ex_world ex_world
              (VList [1; 2]) 1 ∅ 0%nat ex_env ex_template
              eq_refl eq_refl eq_refl eq_refl eq_refl eq_refl
              ltac:(discriminate) I eq_refl) as (w' & Heq & _ & Htrace).
  by exists w'.
Defined.

(** The request 3 belongs to the application that was never set up. *)
Lemma middleware_without_processors_entry_witness :
  exists (w' : World) (d : loc),
    context_processors_middleware ex_config (VRef 3) (fun r => ret r) ex_world
    = (Raise (KeyError APP_CONTEXT_PROCESSORS_KEY), w')
    /\ accumulated_context (heap w') 3 = Some (d, ∅).
Proof.
  destruct (middleware_without_processors_entry ex_config 3 ∅ 1%nat
              (fun r => ret r) ex_world _ _ _ eq_refl eq_refl
              (entry_absent ex_world 3 ∅ 1%nat (lookup_empty _)))
    as [Heq Hacc].
  eexists _, _. split; [exact Heq|exact Hacc].
Defined.

(** The request 14: [p1] returns, the next processor fails, [p2] is
    never called. *)
Lemma middleware_processor_error_propagates_witness :
  exists (w' : World) (d : loc),
    context_processors_middleware ex_config2 (VRef 14) (fun r => ret r)
      ex_world2
    = (Raise (RuntimeError "no database"), w')
    /\ accumulated_context (heap w') 14 = Some (d, {[ "a" := VInt 1 ]})
    /\ trace w' = [EvProcessor "p1" {[ "a" := VInt 1 ]}].
Proof.
  eexists _, _. split.
  - apply (middleware_processor_error_propagates ex_config2 14 ∅ 3%nat
             [ex_p1] [ex_p2] ex_failing (fun r => ret r) ex_world2 _ _ _
             [{[ "a" := VInt 1 ]}] (RuntimeError "no database")
             eq_refl eq_refl (entry_absent ex_world2 14 ∅ 3%nat (lookup_empty _))
             (conj eq_refl I) eq_refl).
  - split; vm_compute; reflexivity.
Defined.

(** The request 11 holds [None] under the context key. *)
Lemma middleware_rejects_foreign_entry_witness :
  context_processors_middleware ex_config2 (VRef 11) (fun r => ret r) ex_world2
  = (Raise (AttributeError "update"), ex_world2).
Proof.
  apply (middleware_rejects_foreign_entry ex_config2 11
           {[ REQUEST_CONTEXT_KEY := VNone ]} 0%nat ex_p1 [ex_p2]
           (fun r => ret r) ex_world2 VNone (AttributeError "update"));
    reflexivity.
Defined.

(** The whole pipeline for the request 1 and the context [{'x': 1}]. *)
Lemma middleware_then_render_template_witness :
  exists (lr : loc) (w' : World) (d : loc),
    context_processors_middleware ex_config (VRef 1)
      (fun request => render_template ex_config "t.html" request (VRef 2)
                        None None None) ex_world
    = (Ok (VRef lr), w')
    /\ heap w' !! lr
       = Some (OResponse (mkResponse 200 "text/html" (Some "utf-8") (Some "1")))
    /\ accumulated_context (heap w') 1
       = Some (d, fold_left merge [{[ "a" := VInt 1 ]}; {[ "a" := VInt 2 ]}] ∅).
Proof.
  pose proof (middleware_then_render_template ex_config "t.html" 1 (VRef 2)
                None None None ∅ 0%nat [ex_p1; ex_p2] ex_env ex_template
                {[ "x" := VInt 1 ]} ex_world _ _ _
                [{[ "a" := VInt 1 ]}; {[ "a" := VInt 2 ]}]
                eq_refl eq_refl
                (entry_absent ex_world 1 ∅ 0%nat (lookup_empty _))
                (conj eq_refl (conj eq_refl I)) eq_refl eq_refl eq_refl) as H.
  cbv zeta in H.
  lazymatch type of H with
  | match ?s with Ok _ => _ | Raise _ => _ end =>
      destruct s as [text|e] eqn:E
  end.
  - vm_compute in E. injection E as <-.
    destruct H as (lr & w' & Heq & Hlr & Hacc & _).
    eexists lr, w', _. split; [exact Heq|]. split; [exact Hlr|exact Hacc].
  - vm_compute in E. discriminate.
Defined.

(** The request 15: [request_processor] is registered after [p1]. *)
Lemma middleware_request_processor_witness :
  exists (w' : World) (d : loc) (acc : Ctx),
    context_processors_middleware ex_config2 (VRef 15) (fun r => ret r)
      ex_world2
    = (Ok (VRef 15), w')
    /\ accumulated_context (heap w') 15 = Some (d, acc)
    /\ acc !! "request" = Some (VRef 15).
Proof.
  destruct (middleware_request_processor ex_config2 15 ∅ 4%nat [ex_p1] []
              (fun r => ret r) ex_world2 _ _ _ [{[ "a" := VInt 1 ]}] []
              {[ "request" := VRef 15 ]}
              eq_refl eq_refl
              (entry_absent ex_world2 15 ∅ 4%nat (lookup_empty _))
              eq_refl (conj eq_refl (conj eq_refl I)))
    as (w' & acc & Heq & Hacc & Hreq).
  - intros m' Hm'. by apply elem_of_nil in Hm'.
  - eexists w', _, acc. split; [exact Heq|]. split; [exact Hacc|exact Hreq].
Defined.

(** The middleware twice around the handler, for the request 1. *)
Lemma middleware_nested_twice_witness :
  exists w' : World,
    context_processors_middleware ex_config (VRef 1)
      (fun request =>
         context_processors_middleware ex_config request (fun r => ret r))
      ex_world
    = (Ok (VRef 1), w')
    /\ trace w' = [EvProcessor "p1" {[ "a" := VInt 1 ]};
                   EvProcessor "p2" {[ "a" := VInt 2 ]};
                   EvProcessor "p1" {[ "a" := VInt 1 ]};
                   EvProcessor "p2" {[ "a" := VInt 2 ]}].
Proof.
  eexists. split.
  - apply (middleware_nested_twice ex_config 1 ∅ 0%nat [ex_p1; ex_p2]
             (fun r => ret r) ex_world _ _ _
             [{[ "a" := VInt 1 ]}; {[ "a" := VInt 2 ]}]
             [{[ "a" := VInt 1 ]}; {[ "a" := VInt 2 ]}]
             eq_refl eq_refl
             (entry_absent ex_world 1 ∅ 0%nat (lookup_empty _))
             (conj eq_refl (conj eq_refl I)) (conj eq_refl (conj eq_refl I))).
  - reflexivity.
Defined.

Lemma ex_setup_value : ex_setup = (Ok ex_env_object, ex_app_after).
Proof. reflexivity. Qed.

Lemma ex_setup_admin_value :
  ex_setup_admin = (Ok ex_admin_env_object, ex_app_admin).
Proof. reflexivity. Qed.

Lemma setup_then_get_env_witness :
  get_env (app_state ex_app_after) None = AEnv (env_handle ex_env_object).
Proof.
  apply (setup_then_get_env ex_new_environment ex_helpers _ _ _ _ _ _ _ _ _ _
           ex_setup_value).
  right. discriminate.
Defined.


Lemma setup_globals_and_filters_witness :
  env_globals ex_env_object !! "app" = Some EApplication
  /\ env_globals ex_env_object !! "url" = Some (ECallable "url_for")
  /\ env_globals ex_env_object !! "range" = Some (ECallable "range")
  /\ env_filters ex_env_object !! "upper" = Some (ECallable "my_upper").
Proof.
  destruct (setup_globals_and_filters ex_new_environment ex_helpers _ _ _ _ _
              _ _ _ _ _ ex_setup_value)
    as (kwargs' & env0 & Hnew & _ & Happ & Hhelper & Hkept & Hfilter & _).
  split; [exact Happ|]. split; [|split].
  - apply Hhelper; [discriminate|reflexivity|reflexivity].
  - rewrite Hkept; [|discriminate|by right].
    unfold ex_new_environment in Hnew.
    destruct (kwargs' !! "bogus"); [discriminate|]. by injection Hnew as <-.
  - by apply (Hfilter {[ "upper" := ECallable "my_upper" ]}).
Defined.

Lemma setup_keeps_the_rest_witness :
  app_middlewares ex_app_after
  = [OtherMiddleware "logger"; ContextProcessorsMiddleware]
  /\ app_state ex_app_after !! "other" = None.
Proof.
  destruct (setup_keeps_the_rest ex_new_environment ex_helpers _ _ _ _ _ _ _ _
              _ _ ex_setup_value) as (Hrest & Hmw & _).
  split; [exact Hmw|]. rewrite Hrest; [reflexivity|discriminate|discriminate].
Defined.

Lemma setup_keeps_middleware_backed_witness : middleware_backed ex_app_after.
Proof.
  apply (setup_keeps_middleware_backed ex_new_environment ex_helpers ex_app
           ex_app_after [] None [ex_p1; ex_p2]
           (Some {[ "upper" := ECallable "my_upper" ]}) None None ∅
           (Ok ex_env_object)).
  - intros Hin. apply list_elem_of_singleton in Hin. discriminate.
  - discriminate.
  - exact ex_setup_value.
Defined.

(** A request of the application that was set up, served through the
    middleware [setup] registered. *)
Lemma setup_then_middleware_witness :
  exists w' : World,
    last (app_middlewares ex_app_after) = Some ContextProcessorsMiddleware
    /\ context_processors_middleware (fun _ => app_state ex_app_after) (VRef 1)
         (fun r => ret r) ex_world = (Ok (VRef 1), w')
    /\ trace w' = [EvProcessor "p1" {[ "a" := VInt 1 ]};
                   EvProcessor "p2" {[ "a" := VInt 2 ]}].
Proof.
  destruct (setup_then_middleware ex_new_environment ex_helpers
              (fun _ => app_state ex_app_after) _ _ _ _ _ _ _ _ _ _
              1 ∅ 0%nat (fun r => ret r) ex_world _ _ _
              [{[ "a" := VInt 1 ]}; {[ "a" := VInt 2 ]}]
              ex_setup_value ltac:(discriminate) eq_refl eq_refl
              (entry_absent ex_world 1 ∅ 0%nat (lookup_empty _))
              (conj eq_refl (conj eq_refl I))) as [Hlast Hrun].
  eexists. split; [exact Hlast|]. split; [exact Hrun|reflexivity].
Defined.

Lemma setup_then_render_string_witness :
  render_string (fun _ => app_state ex_app_after) "t.html" (VRef 1) (VRef 2)
    None ex_world
  = (Ok "1", add_event (EvRender true "t.html" {[ "x" := VInt 1 ]}) ex_world).
Proof.
  etrans.
  - apply (setup_then_render_string ex_new_environment ex_helpers
             (fun _ => app_state ex_app_after) _ _ _ _ _ _ _ _ _ _ "t.html" 1
             (VRef 2) ∅ 0%nat ex_template {[ "x" := VInt 1 ]} None ex_world
             ex_setup_value); try reflexivity.
    right. discriminate.
  - vm_compute. reflexivity.
Defined.

(** A second environment under the key [admin]. *)
Lemma setup_twice_with_two_keys_witness :
  get_env (app_state ex_app_admin) None = AEnv (env_handle ex_env_object)
  /\ get_env (app_state ex_app_admin) (Some "admin")
     = AEnv (env_handle ex_admin_env_object).
Proof.
  apply (setup_twice_with_two_keys ex_new_environment ex_helpers _ _ _ _ _ _
           _ _ _ _ _ _ _ _ _ _ _ _ _ ex_setup_value ex_setup_admin_value);
    discriminate.
Defined.
